(** * kaag_pdf.generator: the two-pass report renderer

  A shallow embedding of [PDFGenerator] (src/kaag_pdf/generator.py) and
  the properties of its pagination: [create_report], [new_page],
  [check_page_break] and the convenience drawing methods.

  Python floats are IEEE binary64 numbers; they are modelled by the
  standard library's [spec_float] at precision 53, so that comparisons
  with a NaN behave as they do in the interpreter.  The generator's
  mutable fields, the drawing surface and the wall clock, which
  [_draw_header] reads for the date and each new canvas for the time
  stamp of its document, are threaded through a state-and-exception
  monad. *)

From Stdlib Require Import ZArith List String Bool Lia.
From Stdlib Require Import Floats.SpecFloat.
Import ListNotations.

Local Open Scope Z_scope.

(** ** Binary64 arithmetic *)

Module Float.

Definition float : Type := spec_float.

Definition prec : Z := 53.
Definition emax : Z := 1024.

Definition nan : float := S754_nan.

(** An [int] operand of a mixed int/float operation: Python converts it
    to the nearest float (exact for the small literals of this file). *)
Definition of_int (n : Z) : float := binary_normalize prec emax n 0 false.

Definition add : float -> float -> float := SFadd prec emax.
Definition sub : float -> float -> float := SFsub prec emax.
Definition mul : float -> float -> float := SFmul prec emax.
Definition div : float -> float -> float := SFdiv prec emax.

(** [x < y] and [x >= y]; both are [false] when an operand is a NaN. *)
Definition ltb (x y : float) : bool := SFltb x y.
Definition geb (x y : float) : bool := SFleb y x.

End Float.

Abbreviation float := Float.float.

(** ** reportlab.lib.units and reportlab.lib.pagesizes *)

Module Units.

(** [inch = 72.0], [cm = inch / 2.54], [mm = cm * 0.1]. The literals
    2.54 and 0.1 are the correctly rounded quotients 254/100 and 1/10. *)
Definition inch : float := Float.of_int 72.
Definition cm : float :=
  Float.div inch (Float.div (Float.of_int 254) (Float.of_int 100)).
Definition mm : float :=
  Float.mul cm (Float.div (Float.of_int 1) (Float.of_int 10)).

(** [A4 = (210*mm, 297*mm)]. *)
Definition A4 : float * float :=
  (Float.mul (Float.of_int 210) mm, Float.mul (Float.of_int 297) mm).

End Units.

(** ** Data exchanged with the components *)

(** Modelled from the spec: the styles object ([.styles] is not part of the
  sources at hand); of its fields the generator reads these three. *)
Record PDFStyles : Type := mkPDFStyles {
  page_margin_left : float;
  page_margin_bottom : float;
  footer_height : float
}.

(** [HeaderData(title=, subtitle=, date=, logo_path=)] as built by
    [_draw_header]. *)
Record HeaderData : Type := mkHeaderData {
  hd_title : string;
  hd_subtitle : option string;
  hd_date : string;
  hd_logo_path : option string
}.

(** [FooterData(show_page_numbers=, total_pages=)] as built by
    [_draw_footer]. *)
Record FooterData : Type := mkFooterData {
  fd_show_page_numbers : bool;
  fd_total_pages : Z
}.

(** A raised Python exception, identified by its message. *)
Definition Exception : Type := string.

(** Outcome of a call: a returned value or a raised exception. *)
Inductive Result (A : Type) : Type :=
| Returned (a : A)
| Raised (e : Exception).

Arguments Returned {A} a.
Arguments Raised {A} e.

Section Generator.

(** Payload types of the chart components, which live outside the
    generator, and the type of the [data] dictionary handed through to the
    content callback. *)
Context {PerformanceBarData RadarChartData Data : Type}.

(** ** The drawing surface

    The components draw by issuing operators on the canvas.  The model
    records each component call that completed, with its arguments, on
    the page being built: that is the page's content as far as the
    generator decides it. *)

Inductive DrawCall : Type :=
| HeaderDraw (header_data : HeaderData) (page_width : float)
| FooterDraw (footer_data : FooterData) (page_number : Z) (page_width : float)
| SectionDraw (x y : float) (title : string) (show_line : bool)
| InfoBlockDraw (x y width : float) (items : list (string * string))
                (title : option string)
| StatsTableDraw (x y : float) (headers : list string)
                 (rows : list (list string)) (col_widths : option (list float))
| RadarChartDraw (center_x center_y : float) (data : RadarChartData)
                 (size : option float)
| PerformanceBarDraw (x y : float) (data : PerformanceBarData)
                     (label_width : float) (bar_width : option float).

Definition Page : Type := list DrawCall.

(** The content of a byte buffer.  Nothing is in it until the canvas
    behind it is saved; then it holds the document: the time stamp the
    library took for it, which dates its Info dictionary (CreationDate,
    ModDate) and seeds its trailer ID, no invariant mode being asked
    for, and its pages, in order. *)
Record bytes : Type := mkBytes {
  doc_stamp : option Z;
  doc_pages : list Page
}.

Definition empty_bytes : bytes := mkBytes None [].

(** [Canvas(buffer, pagesize=...)]: [_timeStamp] is the time stamp its
    document took when the canvas was made, [_code] the page being
    built, [_doc] the pages closed so far, [buffer] the [BytesIO] it
    writes to when saved. *)
Record Canvas : Type := mkCanvas {
  _pagesize : float * float;
  _timeStamp : Z;
  _code : Page;
  _doc : list Page;
  buffer : bytes
}.

Definition new_Canvas (pagesize : float * float) (stamp : Z) : Canvas :=
  mkCanvas pagesize stamp [] [] empty_bytes.

Definition Canvas_emit (c : DrawCall) (cv : Canvas) : Canvas :=
  mkCanvas (_pagesize cv) (_timeStamp cv) (_code cv ++ [c]) (_doc cv)
           (buffer cv).

(** [Canvas.showPage]: close the current page, also when it is blank. *)
Definition Canvas_showPage (cv : Canvas) : Canvas :=
  mkCanvas (_pagesize cv) (_timeStamp cv) [] (_doc cv ++ [_code cv])
           (buffer cv).

(** [Canvas.save]: if the current page holds data a [showPage] is done
    first, then the document is written to the buffer.  A page on which
    a component has drawn holds data. *)
Definition Canvas_save (cv : Canvas) : Canvas :=
  let cv' := match _code cv with
             | [] => cv
             | _ :: _ => Canvas_showPage cv
             end in
  mkCanvas (_pagesize cv') (_timeStamp cv') (_code cv') (_doc cv')
           (mkBytes (Some (_timeStamp cv')) (_doc cv')).

(** ** State and exceptions *)

(** What a call can change: the two page counters of the generator, the
    canvas in use, and the wall clock: [clock k] is the date string that
    the [k]-th evaluation of [datetime.now().strftime] yields, [reads]
    counts the evaluations so far; [stamps k] is the time stamp that the
    [k]-th canvas made takes, [made] counts the canvases made so far. *)
Record State : Type := mkState {
  _current_page : Z;
  _total_pages : Z;
  canvas : Canvas;
  clock : nat -> string;
  reads : nat;
  stamps : nat -> Z;
  made : nat
}.

Definition M (A : Type) : Type := State -> Result A * State.

Definition ret {A : Type} (a : A) : M A := fun st => (Returned a, st).

Definition raise {A : Type} (e : Exception) : M A := fun st => (Raised e, st).

Definition bind {A B : Type} (m : M A) (k : A -> M B) : M B :=
  fun st =>
    match m st with
    | (Returned a, st') => k a st'
    | (Raised e, st') => (Raised e, st')
    end.

Notation "x <- m ;; k" := (bind m (fun x => k))
  (at level 61, m at next level, right associativity).
Notation "m ;; k" := (bind m (fun _ => k))
  (at level 61, right associativity).

Definition get_current_page : M Z := fun st => (Returned (_current_page st), st).
Definition get_total_pages : M Z := fun st => (Returned (_total_pages st), st).

Definition set_current_page (n : Z) : M unit :=
  fun st => (Returned tt,
             mkState n (_total_pages st) (canvas st) (clock st) (reads st)
                     (stamps st) (made st)).

Definition set_total_pages (n : Z) : M unit :=
  fun st => (Returned tt,
             mkState (_current_page st) n (canvas st) (clock st) (reads st)
                     (stamps st) (made st)).

Definition with_canvas (cv : Canvas) (st : State) : State :=
  mkState (_current_page st) (_total_pages st) cv (clock st) (reads st)
          (stamps st) (made st).

(** [Canvas(buffer, pagesize=...)] on a new [BytesIO]: the canvas made
    takes its time stamp and becomes the canvas in use. *)
Definition make_canvas (pagesize : float * float) : M unit :=
  fun st => (Returned tt,
             mkState (_current_page st) (_total_pages st)
                     (new_Canvas pagesize (stamps st (made st)))
                     (clock st) (reads st) (stamps st) (S (made st))).

Definition on_canvas (f : Canvas -> Canvas) : M unit :=
  fun st => (Returned tt, with_canvas (f (canvas st)) st).

Definition showPage : M unit := on_canvas Canvas_showPage.
Definition save : M unit := on_canvas Canvas_save.
Definition getvalue : M bytes := fun st => (Returned (buffer (canvas st)), st).

(** [datetime.now().strftime(...)]: the day, month name and year. *)
Definition now_strftime : M string :=
  fun st => (Returned (clock st (reads st)),
             mkState (_current_page st) (_total_pages st) (canvas st)
                     (clock st) (S (reads st)) (stamps st) (made st)).

(** A component's [draw]: when it returns, the call is on the page; when
    it raises, the exception travels on. *)
Definition component_draw {A : Type} (c : DrawCall) (r : Result A) : M A :=
  match r with
  | Returned a => on_canvas (Canvas_emit c) ;; ret a
  | Raised e => raise e
  end.

(** ** The generator *)

(** The fields [__init__] sets and no method reassigns.  A component is
    represented by its [draw] method: a function of the call's arguments
    (the canvas apart) that returns or raises. *)
Record PDFGenerator : Type := mkPDFGenerator {
  styles : PDFStyles;
  logo_path : option string;
  header_component : HeaderData -> float -> Result float;
  footer_component : FooterData -> Z -> float -> Result unit;
  section_header : float -> float -> string -> bool -> Result float;
  info_block : float -> float -> float -> list (string * string) ->
               option string -> Result float;
  stats_table : float -> float -> list string -> list (list string) ->
                option (list float) -> Result float;
  radar_chart : float -> float -> RadarChartData -> option float -> Result unit;
  performance_bar : float -> float -> PerformanceBarData -> float ->
                    option float -> Result float;
  _page_size : float * float
}.

Variable self : PDFGenerator.

Definition _draw_header (title : string) (subtitle : option string) : M float :=
  date <- now_strftime ;;
  let header_data := mkHeaderData title subtitle date (logo_path self) in
  component_draw (HeaderDraw header_data (fst (_page_size self)))
                 (header_component self header_data (fst (_page_size self))).

Definition _draw_footer : M unit :=
  total <- get_total_pages ;;
  let footer_data := mkFooterData true total in
  page <- get_current_page ;;
  component_draw (FooterDraw footer_data page (fst (_page_size self)))
                 (footer_component self footer_data page (fst (_page_size self))).

Definition new_page (title : string) (subtitle : option string) : M float :=
  showPage ;;
  page <- get_current_page ;;
  set_current_page (page + 1) ;;
  start_y <- _draw_header title subtitle ;;
  _draw_footer ;;
  ret start_y.

(** [page_margin_bottom + footer_height + 10 * mm]. *)
Definition min_y : float :=
  Float.add (Float.add (page_margin_bottom (styles self))
                       (footer_height (styles self)))
            (Float.mul (Float.of_int 10) Units.mm).

Definition check_page_break (current_y needed_height : float)
    (title : string) (subtitle : option string) : M float :=
  if Float.ltb (Float.sub current_y needed_height) min_y
  then new_page title subtitle
  else ret current_y.

(** *** Convenience methods *)

Definition draw_section (y : float) (title : string) (show_line : bool)
    : M float :=
  component_draw (SectionDraw (page_margin_left (styles self)) y title show_line)
                 (section_header self (page_margin_left (styles self)) y title
                                 show_line).

Definition draw_info_block (y : float) (items : list (string * string))
    (title : option string) (width x : option float) : M float :=
  let width :=
    match width with
    | Some w => w
    | None =>
        Float.sub
          (Float.div
             (Float.sub (fst (_page_size self))
                        (Float.mul (Float.of_int 2)
                                   (page_margin_left (styles self))))
             (Float.of_int 2))
          (Float.mul (Float.of_int 5) Units.mm)
    end in
  let x := match x with
           | Some x => x
           | None => page_margin_left (styles self)
           end in
  component_draw (InfoBlockDraw x y width items title)
                 (info_block self x y width items title).

Definition draw_stats_table (y : float) (headers : list string)
    (rows : list (list string)) (col_widths : option (list float)) : M float :=
  component_draw
    (StatsTableDraw (page_margin_left (styles self)) y headers rows col_widths)
    (stats_table self (page_margin_left (styles self)) y headers rows col_widths).

Definition draw_radar_chart (center_x center_y : float) (data : RadarChartData)
    (size : option float) : M unit :=
  component_draw (RadarChartDraw center_x center_y data size)
                 (radar_chart self center_x center_y data size).

(** The default of the [label_width] parameters, [40 * mm]. *)
Definition default_label_width : float := Float.mul (Float.of_int 40) Units.mm.

Definition draw_performance_bar (y : float) (data : PerformanceBarData)
    (label_width : float) (bar_width x : option float) : M float :=
  let x := match x with
           | Some x => x
           | None => page_margin_left (styles self)
           end in
  component_draw (PerformanceBarDraw x y data label_width bar_width)
                 (performance_bar self x y data label_width bar_width).

(** The [for] loop over [bars], threading [current_y]. *)
Fixpoint draw_performance_bars (y : float) (bars : list PerformanceBarData)
    (label_width : float) (bar_width : option float) : M float :=
  match bars with
  | [] => ret y
  | bar_data :: bars' =>
      current_y <- draw_performance_bar y bar_data label_width bar_width None ;;
      draw_performance_bars current_y bars' label_width bar_width
  end.

(** *** Properties *)

Definition page_width : float := fst (_page_size self).
Definition page_height : float := snd (_page_size self).
Definition current_page : M Z := get_current_page.
Definition total_pages : M Z := get_total_pages.

(** ** Content callbacks

    A callback is caller code: it gets the generator, the canvas, the start
    offset, the data and the [counting_only] flag.  What it can do to the
    report is call the generator: a callback is the tree of those calls,
    each continuing with the value the call returned.  A callback may
    also raise.  Page breaks are requested through [new_page] or
    [check_page_break]. *)

Inductive Prog : Type :=
| Return (y : float)
| Raise (e : Exception)
| Call_new_page (title : string) (subtitle : option string) (k : float -> Prog)
| Call_check_page_break (current_y needed_height : float) (title : string)
                        (subtitle : option string) (k : float -> Prog)
| Call_draw_section (y : float) (title : string) (show_line : bool)
                    (k : float -> Prog)
| Call_draw_info_block (y : float) (items : list (string * string))
                       (title : option string) (width x : option float)
                       (k : float -> Prog)
| Call_draw_stats_table (y : float) (headers : list string)
                        (rows : list (list string))
                        (col_widths : option (list float)) (k : float -> Prog)
| Call_draw_radar_chart (center_x center_y : float) (data : RadarChartData)
                        (size : option float) (k : Prog)
| Call_draw_performance_bar (y : float) (data : PerformanceBarData)
                            (label_width : float) (bar_width x : option float)
                            (k : float -> Prog)
| Call_draw_performance_bars (y : float) (bars : list PerformanceBarData)
                             (label_width : float) (bar_width : option float)
                             (k : float -> Prog)
| Read_current_page (k : Z -> Prog)
| Read_total_pages (k : Z -> Prog).

(** [content_callback(self, canvas, start_y, data, counting_only=...)]. *)
Definition Callback : Type := float -> option Data -> bool -> Prog.

Fixpoint run (p : Prog) : M float :=
  match p with
  | Return y => ret y
  | Raise e => raise e
  | Call_new_page title subtitle k =>
      y <- new_page title subtitle ;; run (k y)
  | Call_check_page_break current_y needed_height title subtitle k =>
      y <- check_page_break current_y needed_height title subtitle ;; run (k y)
  | Call_draw_section y title show_line k =>
      y' <- draw_section y title show_line ;; run (k y')
  | Call_draw_info_block y items title width x k =>
      y' <- draw_info_block y items title width x ;; run (k y')
  | Call_draw_stats_table y headers rows col_widths k =>
      y' <- draw_stats_table y headers rows col_widths ;; run (k y')
  | Call_draw_radar_chart center_x center_y data size k =>
      draw_radar_chart center_x center_y data size ;; run k
  | Call_draw_performance_bar y data label_width bar_width x k =>
      y' <- draw_performance_bar y data label_width bar_width x ;; run (k y')
  | Call_draw_performance_bars y bars label_width bar_width k =>
      y' <- draw_performance_bars y bars label_width bar_width ;; run (k y')
  | Read_current_page k => n <- current_page ;; run (k n)
  | Read_total_pages k => n <- total_pages ;; run (k n)
  end.

(** [if content_callback: content_callback(self, canvas, start_y, data,
    counting_only=...)]; the offset the callback returns is dropped. *)
Definition invoke (content_callback : option Callback) (start_y : float)
    (data : option Data) (counting_only : bool) : M unit :=
  match content_callback with
  | Some callback => run (callback start_y data counting_only) ;; ret tt
  | None => ret tt
  end.

Definition create_report (title : string) (subtitle : option string)
    (content_callback : option Callback) (data : option Data) : M bytes :=
  (* First pass - count pages *)
  make_canvas (_page_size self) ;;
  set_current_page 1 ;;
  set_total_pages 0 ;;
  start_y <- _draw_header title subtitle ;;
  invoke content_callback start_y data true ;;
  showPage ;;
  page <- get_current_page ;;
  set_total_pages page ;;
  (* Second pass - render with correct page numbers *)
  make_canvas (_page_size self) ;;
  set_current_page 1 ;;
  start_y <- _draw_header title subtitle ;;
  _draw_footer ;;
  invoke content_callback start_y data false ;;
  save ;;
  getvalue.

(** ** Vocabulary of the statements *)

(** The number of times [new_page] is entered while [p] runs from [st]
    (directly, or through a [check_page_break] that breaks). *)
Definition and_then {A : Type} (r : Result A * State) (f : A -> State -> nat)
    : nat :=
  match r with
  | (Returned a, st') => f a st'
  | (Raised _, _) => 0%nat
  end.

Fixpoint page_breaks (p : Prog) (st : State) : nat :=
  match p with
  | Return _ => 0%nat
  | Raise _ => 0%nat
  | Call_new_page title subtitle k =>
      S (and_then (new_page title subtitle st) (fun y => page_breaks (k y)))
  | Call_check_page_break current_y needed_height title subtitle k =>
      ((if Float.ltb (Float.sub current_y needed_height) min_y
        then 1 else 0)
       + and_then (check_page_break current_y needed_height title subtitle st)
                  (fun y => page_breaks (k y)))%nat
  | Call_draw_section y title show_line k =>
      and_then (draw_section y title show_line st) (fun y' => page_breaks (k y'))
  | Call_draw_info_block y items title width x k =>
      and_then (draw_info_block y items title width x st)
               (fun y' => page_breaks (k y'))
  | Call_draw_stats_table y headers rows col_widths k =>
      and_then (draw_stats_table y headers rows col_widths st)
               (fun y' => page_breaks (k y'))
  | Call_draw_radar_chart center_x center_y data size k =>
      and_then (draw_radar_chart center_x center_y data size st)
               (fun _ => page_breaks k)
  | Call_draw_performance_bar y data label_width bar_width x k =>
      and_then (draw_performance_bar y data label_width bar_width x st)
               (fun y' => page_breaks (k y'))
  | Call_draw_performance_bars y bars label_width bar_width k =>
      and_then (draw_performance_bars y bars label_width bar_width st)
               (fun y' => page_breaks (k y'))
  | Read_current_page k =>
      and_then (current_page st) (fun n => page_breaks (k n))
  | Read_total_pages k =>
      and_then (total_pages st) (fun n => page_breaks (k n))
  end.

(** The two halves of [create_report]: up to the recording of the total,
    and from the second canvas on. *)
Definition counting_prologue (title : string) (subtitle : option string)
    : M float :=
  make_canvas (_page_size self) ;;
  set_current_page 1 ;;
  set_total_pages 0 ;;
  _draw_header title subtitle.

Definition counting_pass (title : string) (subtitle : option string)
    (content_callback : option Callback) (data : option Data) : M unit :=
  start_y <- counting_prologue title subtitle ;;
  invoke content_callback start_y data true ;;
  showPage ;;
  page <- get_current_page ;;
  set_total_pages page.

Definition rendering_prologue (title : string) (subtitle : option string)
    : M float :=
  make_canvas (_page_size self) ;;
  set_current_page 1 ;;
  start_y <- _draw_header title subtitle ;;
  _draw_footer ;;
  ret start_y.

Definition rendering_pass (title : string) (subtitle : option string)
    (content_callback : option Callback) (data : option Data) : M bytes :=
  start_y <- rendering_prologue title subtitle ;;
  invoke content_callback start_y data false ;;
  save ;;
  getvalue.

(** Page breaks of the callback in each pass of a [create_report] started
    in [st]. *)
Definition callback_breaks (content_callback : option Callback)
    (start : Result float * State) (data : option Data) (counting_only : bool)
    : nat :=
  match content_callback with
  | Some callback =>
      and_then start (fun y => page_breaks (callback y data counting_only))
  | None => 0%nat
  end.

Definition counting_breaks (title : string) (subtitle : option string)
    (content_callback : option Callback) (data : option Data) (st : State)
    : nat :=
  callback_breaks content_callback (counting_prologue title subtitle st)
                  data true.

Definition rendering_breaks (title : string) (subtitle : option string)
    (content_callback : option Callback) (data : option Data) (st : State)
    : nat :=
  callback_breaks content_callback
    (rendering_prologue title subtitle
       (snd (counting_pass title subtitle content_callback data st)))
    data false.

(** The footer calls on a page. *)
Definition is_footer (c : DrawCall) : bool :=
  match c with
  | FooterDraw _ _ _ => true
  | _ => false
  end.

Definition footers (page : Page) : list DrawCall := filter is_footer page.

(** The first page of the document under construction. *)
Definition first_page (cv : Canvas) : Page :=
  match _doc cv with
  | [] => _code cv
  | page :: _ => page
  end.

(** The footer calls expected on the page of index [i] (from 0) when the
    total in force is [total]: [first] on the first page, and on every
    later page the one footer numbered [i + 1]. *)
Definition expected_footers (total : Z) (first : list DrawCall) (i : nat)
    : list DrawCall :=
  match i with
  | O => first
  | S _ => [FooterDraw (mkFooterData true total) (Z.of_nat i + 1)
                       (fst (_page_size self))]
  end.

Definition numbered (total : Z) (first : list DrawCall) (pages : list Page)
    : Prop :=
  forall i page,
    nth_error pages i = Some page -> footers page = expected_footers total first i.

(** The invariant of a pass: the page counter is the number of the page
    being built, and every page so far carries its expected footers. *)
Definition paginated (total : Z) (first : list DrawCall) (st : State) : Prop :=
  _total_pages st = total /\
  _current_page st = Z.of_nat (List.length (_doc (canvas st))) + 1 /\
  numbered total first (_doc (canvas st)) /\
  footers (_code (canvas st))
  = expected_footers total first (List.length (_doc (canvas st))).

(** A step that only adds content to the current page. *)
Definition content_step (st st' : State) : Prop :=
  _current_page st' = _current_page st /\
  _total_pages st' = _total_pages st /\
  _doc (canvas st') = _doc (canvas st) /\
  exists cs, _code (canvas st') = _code (canvas st) ++ cs /\ footers cs = [].

(** A step that keeps the invariant, moves the page counter on by [n] and
    leaves what is already on the first page in place. *)
Definition advances (total : Z) (first : list DrawCall) (n : nat)
    (st st' : State) : Prop :=
  paginated total first st ->
  paginated total first st' /\
  _current_page st' = _current_page st + Z.of_nat n /\
  exists rest, first_page (canvas st') = first_page (canvas st) ++ rest.

(** A callback that raises nowhere, whatever its calls return. *)
Fixpoint never_raises (p : Prog) : Prop :=
  match p with
  | Return _ => True
  | Raise _ => False
  | Call_new_page _ _ k => forall y, never_raises (k y)
  | Call_check_page_break _ _ _ _ k => forall y, never_raises (k y)
  | Call_draw_section _ _ _ k => forall y, never_raises (k y)
  | Call_draw_info_block _ _ _ _ _ k => forall y, never_raises (k y)
  | Call_draw_stats_table _ _ _ _ k => forall y, never_raises (k y)
  | Call_draw_radar_chart _ _ _ _ k => never_raises k
  | Call_draw_performance_bar _ _ _ _ _ k => forall y, never_raises (k y)
  | Call_draw_performance_bars _ _ _ _ k => forall y, never_raises (k y)
  | Read_current_page k => forall n, never_raises (k n)
  | Read_total_pages k => forall n, never_raises (k n)
  end.

(** Components whose [draw] always returns. *)
Definition components_return : Prop :=
  (forall hd w, exists y, header_component self hd w = Returned y) /\
  (forall fd n w, exists u, footer_component self fd n w = Returned u) /\
  (forall x y t l, exists y', section_header self x y t l = Returned y') /\
  (forall x y w i t, exists y', info_block self x y w i t = Returned y') /\
  (forall x y h r c, exists y', stats_table self x y h r c = Returned y') /\
  (forall x y d s, exists u, radar_chart self x y d s = Returned u) /\
  (forall x y d l b, exists y', performance_bar self x y d l b = Returned y').

(** A call that returns from every state. *)
Definition returns {A : Type} (m : M A) : Prop :=
  forall st, exists a st', m st = (Returned a, st').

(** Two states from which a run sees the same things: counters, canvas
    and every later reading of the clock agree. *)
Definition agree (st1 st2 : State) : Prop :=
  _current_page st1 = _current_page st2 /\
  _total_pages st1 = _total_pages st2 /\
  canvas st1 = canvas st2 /\
  (forall k, clock st1 (reads st1 + k)%nat = clock st2 (reads st2 + k)%nat) /\
  (forall k, stamps st1 (made st1 + k)%nat = stamps st2 (made st2 + k)%nat).

(** Two calls whose results and final states agree whenever the initial
    states do. *)
Definition respects {A : Type} (m : M A) : Prop :=
  forall st1 st2, agree st1 st2 ->
    fst (m st1) = fst (m st2) /\ agree (snd (m st1)) (snd (m st2)).

(** *** Accounting of a run *)

(** From [st] to [st'], [n] pages were started: the total is untouched,
    the page counter and the number of clock readings have grown by [n],
    and [n] pages were closed behind the ones already closed, which are
    as they were. *)
Definition accounts (n : nat) (st st' : State) : Prop :=
  _total_pages st' = _total_pages st /\
  _current_page st' = _current_page st + Z.of_nat n /\
  reads st' = (reads st + n)%nat /\
  clock st' = clock st /\
  exists closed,
    _doc (canvas st') = _doc (canvas st) ++ closed /\ List.length closed = n.

(** A call that leaves the byte buffer of the canvas alone, whatever its
    outcome. *)
Definition keeps_buffer {A : Type} (m : M A) : Prop :=
  forall st, buffer (canvas (snd (m st))) = buffer (canvas st).

(** Calls of the content components: neither header nor footer. *)
Definition is_content (c : DrawCall) : bool :=
  match c with
  | HeaderDraw _ _ => false
  | FooterDraw _ _ _ => false
  | _ => true
  end.

(** A page that opens with the header, then the footer, and holds only
    content after them. *)
Definition well_opened (page : Page) : bool :=
  match page with
  | HeaderDraw _ _ :: FooterDraw _ _ _ :: rest => forallb is_content rest
  | _ => false
  end.

(** A step that only adds content calls to the current page. *)
Definition adds_content (st st' : State) : Prop :=
  _doc (canvas st') = _doc (canvas st) /\
  exists cs,
    _code (canvas st') = _code (canvas st) ++ cs /\
    forallb is_content cs = true.

(** Every page of the canvas, closed or current, is well opened. *)
Definition all_well_opened (st : State) : Prop :=
  forallb well_opened (_doc (canvas st)) = true /\
  well_opened (_code (canvas st)) = true.

(** The calls [draw_performance_bars] leaves on the page for bars drawn at
    the offsets [ys]. *)
Definition bar_calls (ys : list float) (bars : list PerformanceBarData)
    (label_width : float) (bar_width : option float) : list DrawCall :=
  map (fun yb => PerformanceBarDraw (page_margin_left (styles self)) (fst yb)
                                    (snd yb) label_width bar_width)
      (combine ys bars).



(** *** The stages of a report *)

(** The header data [_draw_header] builds in [st]. *)
Definition header_at (title : string) (subtitle : option string) (st : State)
    : HeaderData :=
  mkHeaderData title subtitle (clock st (reads st)) (logo_path self).

(** The state in which the callback is invoked in the counting pass of a
    report started in [st]: counters 1 and 0, and a new canvas that holds
    the header. *)
Definition counting_start (title : string) (subtitle : option string)
    (st : State) : State :=
  mkState 1 0
    (mkCanvas (_page_size self) (stamps st (made st))
              [HeaderDraw (header_at title subtitle st) (fst (_page_size self))]
              [] empty_bytes)
    (clock st) (S (reads st)) (stamps st) (S (made st)).

(** The state in which the callback is invoked in the rendering pass,
    when its invocation in the counting pass has ended in [sb]: the total
    is the page counter of [sb], the counter is 1 again, and another new
    canvas holds the header and the footer, and nothing of the canvas of
    [sb]. *)
Definition rendering_start (title : string) (subtitle : option string)
    (sb : State) : State :=
  mkState 1 (_current_page sb)
    (mkCanvas (_page_size self) (stamps sb (made sb))
              [HeaderDraw (header_at title subtitle sb) (fst (_page_size self));
               FooterDraw (mkFooterData true (_current_page sb)) 1
                          (fst (_page_size self))]
              [] empty_bytes)
    (clock sb) (S (reads sb)) (stamps sb) (S (made sb)).

(** The callback, when there is one, runs from [st] with the offset, the
    data and the flag given, returns, and leaves [st']; with no callback
    nothing happens. *)
Definition callback_runs (content_callback : option Callback)
    (start_y : float) (data : option Data) (counting_only : bool)
    (st st' : State) : Prop :=
  match content_callback with
  | Some callback =>
      exists y, run (callback start_y data counting_only) st = (Returned y, st')
  | None => st' = st
  end.

End Generator.

(** ** A concrete generator and concrete callbacks

    Used to run the model: a generator with margins in millimetres, whose
    header leaves the cursor at 500 points and whose blocks each take a
    fixed height, and the two scenarios of a 300-point block drawn once
    and three times. *)

Module Demo.

Definition f (n : Z) : float := Float.of_int n.

Definition styles : PDFStyles :=
  mkPDFStyles (Float.mul (f 20) Units.mm) (Float.mul (f 15) Units.mm)
              (Float.mul (f 10) Units.mm).

Definition generator : @PDFGenerator unit unit :=
  mkPDFGenerator styles None
    (fun _ _ => Returned (f 500))
    (fun _ _ _ => Returned tt)
    (fun _ y _ _ => Returned (Float.sub y (f 28)))
    (fun _ y _ _ _ => Returned (Float.sub y (f 300)))
    (fun _ y _ _ _ => Returned (Float.sub y (f 120)))
    (fun _ _ _ _ => Returned tt)
    (fun _ y _ _ _ => Returned (Float.sub y (f 14)))
    Units.A4.

(** The same generator with a logo that cannot be opened: its header
    raises. *)
Definition generator_no_logo : @PDFGenerator unit unit :=
  mkPDFGenerator styles (Some "missing.png"%string)
    (fun _ _ => Raised "cannot open logo"%string)
    (fun _ _ _ => Returned tt)
    (fun _ y _ _ => Returned (Float.sub y (f 28)))
    (fun _ y _ _ _ => Returned (Float.sub y (f 300)))
    (fun _ y _ _ _ => Returned (Float.sub y (f 120)))
    (fun _ _ _ _ => Returned tt)
    (fun _ y _ _ _ => Returned (Float.sub y (f 14)))
    Units.A4.

(** The same generator with an info block that rejects its items. *)
Definition generator_bad_block : @PDFGenerator unit unit :=
  mkPDFGenerator styles None
    (fun _ _ => Returned (f 500))
    (fun _ _ _ => Returned tt)
    (fun _ y _ _ => Returned (Float.sub y (f 28)))
    (fun _ _ _ _ _ => Raised "TypeError: malformed items"%string)
    (fun _ y _ _ _ => Returned (Float.sub y (f 120)))
    (fun _ _ _ _ => Returned tt)
    (fun _ y _ _ _ => Returned (Float.sub y (f 14)))
    Units.A4.

Definition Data : Type := list (string * string).

Definition report_title : string := "Player Report".
Definition report_subtitle : option string := Some "Season 2024-2025"%string.

(** One info block of 300 points, after asking for the room. *)
Definition block (y : float) (k : float -> @Prog unit unit) : @Prog unit unit :=
  Call_check_page_break y (f 300) report_title report_subtitle
    (fun y1 => Call_draw_info_block y1 [("Goals", "12")]%string None None None k).

Definition one_block : @Callback unit unit Data :=
  fun start_y _ _ => block start_y Return.

Definition three_blocks : @Callback unit unit Data :=
  fun start_y _ _ =>
    block start_y (fun y1 => block y1 (fun y2 => block y2 Return)).

(** Two explicit page breaks, whatever the room left. *)
Definition two_breaks : @Callback unit unit Data :=
  fun _ _ _ =>
    Call_new_page report_title None
      (fun y1 => Call_new_page report_title None Return).

(** A callback that fails on missing data after its first block. *)
Definition failing : @Callback unit unit Data :=
  fun start_y data _ =>
    block start_y
      (fun y1 => match data with
                 | Some _ => Return y1
                 | None => Raise "KeyError: player"%string
                 end).

(** A callback that fails in the rendering pass only. *)
Definition failing_when_rendering : @Callback unit unit Data :=
  fun start_y _ counting_only =>
    if counting_only then Return start_y
    else Call_draw_section start_y "Statistics"%string true
           (fun _ => Raise "ValueError: malformed table"%string).

Definition today (_ : nat) : string := "03 November 2026".

(** A clock that passes midnight after the second reading. *)
Definition over_midnight (k : nat) : string :=
  if (k <? 2)%nat then "03 November 2026"%string
  else "04 November 2026"%string.

(** A generator as [__init__] leaves it: both counters 0.  The time
    stamps stand still, as they do when the environment pins them. *)
Definition fresh (clock : nat -> string) : @State unit unit :=
  mkState 0 0 (new_Canvas Units.A4 0) clock 0 (fun _ => 0) 0.

(** The same with time stamps that move on from one canvas to the next. *)
Definition fresh_ticking (clock : nat -> string) : @State unit unit :=
  mkState 0 0 (new_Canvas Units.A4 0) clock 0 (fun k => Z.of_nat k) 0.

(** The state a report of three blocks is in after its counting pass. *)
Definition counted : @State unit unit :=
  snd (counting_pass generator report_title report_subtitle
                     (Some three_blocks) None (fresh today)).

(** The states in which the callback of that report ends its counting
    and then its rendering. *)
Definition counted_run : @State unit unit :=
  snd (run generator (three_blocks (f 500) None true)
           (counting_start generator report_title report_subtitle
                           (fresh today))).

Definition rendered : @State unit unit :=
  snd (run generator (three_blocks (f 500) None false)
           (rendering_start generator report_title report_subtitle
                            counted_run)).

(** The state the generator is left in by that report. *)
Definition reported : @State unit unit :=
  snd (create_report generator report_title report_subtitle
                     (Some three_blocks) None (fresh today)).

(** A callback that breaks the page in the counting pass only. *)
Definition breaks_when_counting : @Callback unit unit Data :=
  fun start_y _ counting_only =>
    if counting_only then Call_new_page report_title None Return
    else Return start_y.

(** The same generator with a footer that raises. *)
Definition generator_bad_footer : @PDFGenerator unit unit :=
  mkPDFGenerator styles None
    (fun _ _ => Returned (f 500))
    (fun _ _ _ => Raised "KeyError: font"%string)
    (fun _ y _ _ => Returned (Float.sub y (f 28)))
    (fun _ y _ _ _ => Returned (Float.sub y (f 300)))
    (fun _ y _ _ _ => Returned (Float.sub y (f 120)))
    (fun _ _ _ _ => Returned tt)
    (fun _ y _ _ _ => Returned (Float.sub y (f 14)))
    Units.A4.

(** A generator whose bar component rejects the bar [false]. *)
Definition generator_bars : @PDFGenerator bool unit :=
  mkPDFGenerator styles None
    (fun _ _ => Returned (f 500))
    (fun _ _ _ => Returned tt)
    (fun _ y _ _ => Returned (Float.sub y (f 28)))
    (fun _ y _ _ _ => Returned (Float.sub y (f 300)))
    (fun _ y _ _ _ => Returned (Float.sub y (f 120)))
    (fun _ _ _ _ => Returned tt)
    (fun _ y (ok : bool) _ _ =>
       if ok then Returned (Float.sub y (f 14))
       else Raised "ValueError: bar out of range"%string)
    Units.A4.

Definition fresh_bars : @State bool unit :=
  mkState 1 0 (new_Canvas Units.A4 0) today 0 (fun _ => 0) 0.

End Demo.

(** * Properties *)

(** ** Comparisons of binary64 numbers *)

Lemma SFcompare_antisym (x y : float) :
  SFcompare y x = option_map CompOpp (SFcompare x y).
Proof.
  destruct x as [sx | sx | | sx mx ex], y as [sy | sy | | sy my ey];
    simpl; try reflexivity;
    try (destruct sx; reflexivity);
    try (destruct sy; reflexivity);
    try (destruct sx, sy; reflexivity).
  destruct sx, sy; simpl; try reflexivity;
    rewrite (Z.compare_antisym ex ey);
    destruct (ex ?= ey); simpl; try reflexivity;
    change (PosDef.Pos.compare_cont Eq my mx)
      with (Pos.compare_cont (CompOpp Eq) my mx);
    change (PosDef.Pos.compare_cont Eq mx my)
      with (Pos.compare_cont Eq mx my);
    rewrite <- (Pos.compare_cont_antisym mx my Eq);
    destruct (Pos.compare_cont Eq mx my); reflexivity.
Qed.

(** [x >= y] excludes [x < y]. *)
Lemma geb_not_ltb (x y : float) :
  Float.geb x y = true -> Float.ltb x y = false.
Proof.
  unfold Float.geb, Float.ltb, SFleb, SFltb.
  rewrite (SFcompare_antisym x y).
  destruct (SFcompare x y) as [[ | | ] | ]; simpl; congruence.
Qed.

(** With a NaN on either side neither [<] nor [>=] holds. *)
Lemma nan_unordered (y : float) :
  Float.ltb Float.nan y = false /\ Float.geb Float.nan y = false.
Proof. destruct y; split; reflexivity. Qed.

Lemma sub_nan_l (y : float) : Float.sub Float.nan y = Float.nan.
Proof. reflexivity. Qed.

Section Properties.

Context {PerformanceBarData RadarChartData Data : Type}.
Variable self : @PDFGenerator PerformanceBarData RadarChartData.

Local Abbreviation State := (@State PerformanceBarData RadarChartData).
Local Abbreviation M := (@M PerformanceBarData RadarChartData).
Local Abbreviation Prog := (@Prog PerformanceBarData RadarChartData).
Local Abbreviation Callback := (@Callback PerformanceBarData RadarChartData Data).
Local Abbreviation DrawCall := (@DrawCall PerformanceBarData RadarChartData).

(** ** The monad *)

Lemma bind_returned {A B : Type} (m : M A) (k : A -> M B) (st st2 : State)
    (b : B) :
  bind m k st = (Returned b, st2) ->
  exists a st1, m st = (Returned a, st1) /\ k a st1 = (Returned b, st2).
Proof.
  unfold bind. destruct (m st) as [[a | e] st1]; intros H.
  - exists a, st1. split; [reflexivity | exact H].
  - discriminate H.
Qed.

Lemma bind_eq_returned {A B : Type} (m : M A) (k : A -> M B) (st st1 : State)
    (a : A) :
  m st = (Returned a, st1) -> bind m k st = k a st1.
Proof. unfold bind. intros ->. reflexivity. Qed.

Lemma bind_eq_raised {A B : Type} (m : M A) (k : A -> M B) (st st1 : State)
    (e : Exception) :
  m st = (Raised e, st1) -> bind m k st = (Raised e, st1).
Proof. unfold bind. intros ->. reflexivity. Qed.

Lemma component_draw_returned {A : Type} (c : DrawCall) (r : Result A)
    (st st' : State) (a : A) :
  component_draw c r st = (Returned a, st') ->
  r = Returned a /\ st' = with_canvas (Canvas_emit c (canvas st)) st.
Proof.
  destruct r as [a0 | e]; unfold component_draw, bind, on_canvas, ret, raise;
    intros H; inversion H; subst; split; reflexivity.
Qed.

(** ** What the methods do when they return *)

Lemma _draw_header_returned (title : string) (subtitle : option string)
    (st st' : State) (y : float) :
  _draw_header self title subtitle st = (Returned y, st') ->
  let header_data :=
    mkHeaderData title subtitle (clock st (reads st)) (logo_path self) in
  header_component self header_data (fst (_page_size self)) = Returned y /\
  st' = mkState (_current_page st) (_total_pages st)
          (Canvas_emit (HeaderDraw header_data (fst (_page_size self)))
                       (canvas st))
          (clock st) (S (reads st)) (stamps st) (made st).
Proof.
  unfold _draw_header. intros H.
  apply bind_returned in H as (d & st1 & H1 & H2).
  unfold now_strftime in H1. inversion H1; subst; clear H1.
  apply component_draw_returned in H2 as [Hr ->].
  split; [exact Hr | reflexivity].
Qed.

Lemma _draw_footer_returned (st st' : State) (u : unit) :
  _draw_footer self st = (Returned u, st') ->
  let footer_data := mkFooterData true (_total_pages st) in
  footer_component self footer_data (_current_page st) (fst (_page_size self))
  = Returned u /\
  st' = with_canvas
          (Canvas_emit (FooterDraw footer_data (_current_page st)
                                   (fst (_page_size self)))
                       (canvas st)) st.
Proof.
  unfold _draw_footer, bind, get_total_pages, get_current_page. intros H.
  apply component_draw_returned in H. exact H.
Qed.

Lemma new_page_returned (title : string) (subtitle : option string)
    (st st' : State) (y : float) :
  new_page self title subtitle st = (Returned y, st') ->
  let header_data :=
    mkHeaderData title subtitle (clock st (reads st)) (logo_path self) in
  let footer_data := mkFooterData true (_total_pages st) in
  let w := fst (_page_size self) in
  header_component self header_data w = Returned y /\
  st' = mkState (_current_page st + 1) (_total_pages st)
          (mkCanvas (_pagesize (canvas st)) (_timeStamp (canvas st))
                    [HeaderDraw header_data w;
                     FooterDraw footer_data (_current_page st + 1) w]
                    (_doc (canvas st) ++ [_code (canvas st)])
                    (buffer (canvas st)))
          (clock st) (S (reads st)) (stamps st) (made st).
Proof.
  unfold new_page. intros H.
  apply bind_returned in H as ([] & st1 & H1 & H).
  unfold showPage, on_canvas in H1. inversion H1; subst; clear H1.
  apply bind_returned in H as (c & st1 & H1 & H).
  unfold get_current_page in H1. inversion H1; subst; clear H1.
  apply bind_returned in H as ([] & st1 & H1 & H).
  unfold set_current_page in H1. inversion H1; subst; clear H1.
  apply bind_returned in H as (y0 & st1 & H1 & H).
  apply _draw_header_returned in H1 as [Hh ->].
  apply bind_returned in H as (u & st1 & H1 & H).
  apply _draw_footer_returned in H1 as [Hf ->].
  unfold ret in H. inversion H; subst; clear H.
  split; [exact Hh | reflexivity].
Qed.

(** ** Steps of a pass *)

Lemma content_step_refl (st : State) : content_step st st.
Proof.
  repeat split. exists []. split; [symmetry; apply app_nil_r | reflexivity].
Qed.

Lemma content_step_trans (st1 st2 st3 : State) :
  content_step st1 st2 -> content_step st2 st3 -> content_step st1 st3.
Proof.
  intros (Hc & Ht & Hd & cs & Hcs & Hf) (Hc' & Ht' & Hd' & cs' & Hcs' & Hf').
  repeat split; try congruence.
  exists (cs ++ cs'). split.
  - rewrite Hcs', Hcs. symmetry. apply app_assoc.
  - unfold footers in *. rewrite filter_app, Hf, Hf'. reflexivity.
Qed.

Lemma component_draw_content {A : Type} (c : DrawCall) (r : Result A)
    (st st' : State) (a : A) :
  is_footer c = false ->
  component_draw c r st = (Returned a, st') -> content_step st st'.
Proof.
  intros Hc H. apply component_draw_returned in H as [_ ->].
  repeat split. exists [c]. split; [reflexivity | ].
  unfold footers. simpl. rewrite Hc. reflexivity.
Qed.

Lemma draw_performance_bars_content (bars : list PerformanceBarData)
    (label_width : float) (bar_width : option float) :
  forall (y y' : float) (st st' : State),
    draw_performance_bars self y bars label_width bar_width st
    = (Returned y', st') ->
    content_step st st'.
Proof.
  induction bars as [ | bar_data bars IH]; intros y y' st st' H; simpl in H.
  - unfold ret in H. inversion H; subst. apply content_step_refl.
  - apply bind_returned in H as (y1 & st1 & H1 & H2).
    apply content_step_trans with st1.
    + unfold draw_performance_bar in H1.
      eapply component_draw_content; [ | exact H1]. reflexivity.
    + eapply IH. exact H2.
Qed.

Lemma numbered_snoc (total : Z) (first : list DrawCall) (pages : list Page)
    (page : Page) :
  numbered self total first pages ->
  footers page = expected_footers self total first (List.length pages) ->
  numbered self total first (pages ++ [page]).
Proof.
  intros Hn Hp i q Hi.
  destruct (Nat.lt_ge_cases i (List.length pages)) as [Hlt | Hge].
  - rewrite nth_error_app1 in Hi by exact Hlt. apply Hn. exact Hi.
  - rewrite nth_error_app2 in Hi by exact Hge.
    destruct (i - List.length pages)%nat as [ | d] eqn:E; simpl in Hi.
    + inversion Hi; subst q. replace i with (List.length pages) by lia.
      exact Hp.
    + destruct d; discriminate Hi.
Qed.

Lemma advances_content (total : Z) (first : list DrawCall) (st st' : State) :
  content_step st st' -> advances self total first 0 st st'.
Proof.
  intros (Hc & Ht & Hd & cs & Hcs & Hf) (It & Ic & In & If).
  split; [ | split].
  - repeat split.
    + congruence.
    + rewrite Hc, Hd. exact Ic.
    + rewrite Hd. exact In.
    + rewrite Hd, Hcs. unfold footers in *. rewrite filter_app, Hf, app_nil_r.
      exact If.
  - rewrite Hc. simpl. lia.
  - unfold first_page. rewrite Hd. destruct (_doc (canvas st)).
    + exists cs. exact Hcs.
    + exists []. symmetry. apply app_nil_r.
Qed.

Lemma advances_new_page (total : Z) (first : list DrawCall) (title : string)
    (subtitle : option string) (st st' : State) (y : float) :
  new_page self title subtitle st = (Returned y, st') ->
  advances self total first 1 st st'.
Proof.
  intros H (It & Ic & In & If).
  apply new_page_returned in H as [_ ->]. simpl.
  split; [ | split].
  - repeat split; simpl.
    + exact It.
    + rewrite length_app. simpl. lia.
    + apply numbered_snoc; assumption.
    + rewrite length_app. simpl.
      replace (List.length (_doc (canvas st)) + 1)%nat
        with (S (List.length (_doc (canvas st)))) by lia.
      simpl expected_footers. rewrite It, Ic. f_equal. f_equal. lia.
  - lia.
  - exists []. rewrite app_nil_r. unfold first_page. simpl.
    destruct (_doc (canvas st)); reflexivity.
Qed.

Lemma advances_trans (total : Z) (first : list DrawCall) (n m : nat)
    (st1 st2 st3 : State) :
  advances self total first n st1 st2 ->
  advances self total first m st2 st3 ->
  advances self total first (n + m) st1 st3.
Proof.
  intros H12 H23 I1.
  destruct (H12 I1) as (I2 & Hc2 & r2 & Hr2).
  destruct (H23 I2) as (I3 & Hc3 & r3 & Hr3).
  split; [exact I3 | split].
  - rewrite Hc3, Hc2. lia.
  - exists (r2 ++ r3). rewrite Hr3, Hr2. symmetry. apply app_assoc.
Qed.

Lemma advances_check_page_break (total : Z) (first : list DrawCall)
    (current_y needed_height : float) (title : string)
    (subtitle : option string) (st st' : State) (y : float) :
  check_page_break self current_y needed_height title subtitle st
  = (Returned y, st') ->
  advances self total first
    (if Float.ltb (Float.sub current_y needed_height) (min_y self)
     then 1 else 0) st st'.
Proof.
  unfold check_page_break.
  destruct (Float.ltb (Float.sub current_y needed_height) (min_y self)).
  - apply advances_new_page.
  - unfold ret. intros H. inversion H; subst.
    apply advances_content, content_step_refl.
Qed.

(** A callback that returns has kept the invariant, has moved the page
    counter on by the number of its page breaks, and has left the head of
    the first page alone. *)
Lemma run_advances (total : Z) (first : list DrawCall) (p : Prog) :
  forall (st st' : State) (y : float),
    run self p st = (Returned y, st') ->
    advances self total first (page_breaks self p st) st st'.
Proof.
  induction p as [y0 | e | title subtitle k IH
                 | current_y needed_height title subtitle k IH
                 | y0 title show_line k IH
                 | y0 items title width x k IH
                 | y0 headers rows col_widths k IH
                 | center_x center_y data size k IH
                 | y0 data label_width bar_width x k IH
                 | y0 bars label_width bar_width k IH
                 | k IH | k IH];
    intros st st' y H; simpl in H; simpl page_breaks.
  - unfold ret in H. inversion H; subst.
    apply advances_content, content_step_refl.
  - discriminate H.
  - apply bind_returned in H as (y1 & st1 & H1 & H2).
    rewrite H1. simpl and_then.
    apply (advances_trans total first 1 _ st st1 st').
    + eapply advances_new_page. exact H1.
    + eapply IH. exact H2.
  - apply bind_returned in H as (y1 & st1 & H1 & H2).
    rewrite H1. simpl and_then.
    apply advances_trans with st1.
    + eapply advances_check_page_break. exact H1.
    + eapply IH. exact H2.
  - apply bind_returned in H as (y1 & st1 & H1 & H2).
    rewrite H1. simpl and_then.
    apply (advances_trans total first 0 _ st st1 st').
    + apply advances_content.
      eapply component_draw_content; [ | exact H1]. reflexivity.
    + eapply IH. exact H2.
  - apply bind_returned in H as (y1 & st1 & H1 & H2).
    rewrite H1. simpl and_then.
    apply (advances_trans total first 0 _ st st1 st').
    + apply advances_content.
      eapply component_draw_content; [ | exact H1]. reflexivity.
    + eapply IH. exact H2.
  - apply bind_returned in H as (y1 & st1 & H1 & H2).
    rewrite H1. simpl and_then.
    apply (advances_trans total first 0 _ st st1 st').
    + apply advances_content.
      eapply component_draw_content; [ | exact H1]. reflexivity.
    + eapply IH. exact H2.
  - apply bind_returned in H as (u & st1 & H1 & H2).
    rewrite H1. simpl and_then.
    apply (advances_trans total first 0 _ st st1 st').
    + apply advances_content.
      eapply component_draw_content; [ | exact H1]. reflexivity.
    + eapply IH. exact H2.
  - apply bind_returned in H as (y1 & st1 & H1 & H2).
    rewrite H1. simpl and_then.
    apply (advances_trans total first 0 _ st st1 st').
    + apply advances_content.
      eapply component_draw_content; [ | exact H1]. reflexivity.
    + eapply IH. exact H2.
  - apply bind_returned in H as (y1 & st1 & H1 & H2).
    rewrite H1. simpl and_then.
    apply (advances_trans total first 0 _ st st1 st').
    + apply advances_content.
      eapply draw_performance_bars_content. exact H1.
    + eapply IH. exact H2.
  - apply bind_returned in H as (n & st1 & H1 & H2).
    unfold current_page, get_current_page in H1. inversion H1; subst.
    simpl and_then. eapply IH. exact H2.
  - apply bind_returned in H as (n & st1 & H1 & H2).
    unfold total_pages, get_total_pages in H1. inversion H1; subst.
    simpl and_then. eapply IH. exact H2.
Qed.

(** ** The time stamp of the canvas in use *)

Lemma keeps_stamp_bind {A B : Type} (m : M A) (k : A -> M B) :
  (forall st, _timeStamp (canvas (snd (m st))) = _timeStamp (canvas st)) ->
  (forall a st, _timeStamp (canvas (snd (k a st))) = _timeStamp (canvas st)) ->
  forall st, _timeStamp (canvas (snd (bind m k st))) = _timeStamp (canvas st).
Proof.
  intros Hm Hk st. unfold bind. specialize (Hm st).
  destruct (m st) as [[a | e] st1]; simpl in Hm.
  - rewrite Hk. exact Hm.
  - exact Hm.
Qed.

Lemma component_draw_keeps_stamp {A : Type} (c : DrawCall) (r : Result A) :
  forall st,
    _timeStamp (canvas (snd (component_draw c r st))) = _timeStamp (canvas st).
Proof. destruct r; intros st; reflexivity. Qed.

Lemma draw_header_keeps_stamp (title : string) (subtitle : option string) :
  forall st,
    _timeStamp (canvas (snd (_draw_header self title subtitle st)))
    = _timeStamp (canvas st).
Proof.
  apply keeps_stamp_bind; [intros st; reflexivity | ].
  intros d. apply component_draw_keeps_stamp.
Qed.

Lemma draw_footer_keeps_stamp :
  forall st,
    _timeStamp (canvas (snd (_draw_footer self st))) = _timeStamp (canvas st).
Proof.
  apply keeps_stamp_bind; [intros st; reflexivity | intros t].
  apply keeps_stamp_bind; [intros st; reflexivity | intros c].
  apply component_draw_keeps_stamp.
Qed.

Lemma new_page_keeps_stamp (title : string) (subtitle : option string) :
  forall st,
    _timeStamp (canvas (snd (new_page self title subtitle st)))
    = _timeStamp (canvas st).
Proof.
  apply keeps_stamp_bind; [intros st; reflexivity | intros _].
  apply keeps_stamp_bind; [intros st; reflexivity | intros c].
  apply keeps_stamp_bind; [intros st; reflexivity | intros _].
  apply keeps_stamp_bind; [apply draw_header_keeps_stamp | intros y].
  apply keeps_stamp_bind; [apply draw_footer_keeps_stamp | intros _].
  intros st. reflexivity.
Qed.

Lemma check_page_break_keeps_stamp (current_y needed_height : float)
    (title : string) (subtitle : option string) :
  forall st,
    _timeStamp
      (canvas (snd (check_page_break self current_y needed_height title
                                     subtitle st)))
    = _timeStamp (canvas st).
Proof.
  unfold check_page_break.
  destruct (Float.ltb (Float.sub current_y needed_height) (min_y self)).
  - apply new_page_keeps_stamp.
  - intros st. reflexivity.
Qed.

Lemma draw_performance_bars_keeps_stamp (bars : list PerformanceBarData)
    (label_width : float) (bar_width : option float) :
  forall y st,
    _timeStamp
      (canvas (snd (draw_performance_bars self y bars label_width bar_width
                                          st)))
    = _timeStamp (canvas st).
Proof.
  induction bars as [ | bar_data bars IH]; intros y; simpl.
  - intros st. reflexivity.
  - apply keeps_stamp_bind; [apply component_draw_keeps_stamp | exact IH].
Qed.

Lemma run_keeps_stamp (p : Prog) :
  forall st,
    _timeStamp (canvas (snd (run self p st))) = _timeStamp (canvas st).
Proof.
  induction p; simpl;
    try (apply keeps_stamp_bind;
         [first [ apply new_page_keeps_stamp
                | apply check_page_break_keeps_stamp
                | apply component_draw_keeps_stamp
                | apply draw_performance_bars_keeps_stamp
                | intros st; reflexivity ]
         | intros; auto ]);
    intros st; reflexivity.
Qed.

Lemma invoke_keeps_stamp (content_callback : option Callback)
    (start_y : float) (data : option Data) (counting_only : bool) :
  forall st,
    _timeStamp
      (canvas (snd (invoke self content_callback start_y data counting_only
                           st)))
    = _timeStamp (canvas st).
Proof.
  destruct content_callback as [callback | ]; simpl.
  - apply keeps_stamp_bind; [apply run_keeps_stamp | ].
    intros y st. reflexivity.
  - intros st. reflexivity.
Qed.

(** ** The two passes *)

Lemma invoke_advances (total : Z) (first : list DrawCall)
    (content_callback : option Callback) (start_y : float)
    (data : option Data) (counting_only : bool) (st st' : State) (u : unit) :
  invoke self content_callback start_y data counting_only st
  = (Returned u, st') ->
  advances self total first
    (callback_breaks self content_callback (Returned start_y, st) data
                     counting_only)
    st st'.
Proof.
  destruct content_callback as [callback | ]; simpl; intros H.
  - apply bind_returned in H as (y & st1 & H1 & H2).
    unfold ret in H2. inversion H2; subst.
    eapply run_advances. exact H1.
  - unfold ret in H. inversion H; subst.
    apply advances_content, content_step_refl.
Qed.

Lemma create_report_passes (title : string) (subtitle : option string)
    (content_callback : option Callback) (data : option Data) (st : State) :
  create_report self title subtitle content_callback data st
  = bind (counting_pass self title subtitle content_callback data)
         (fun _ => rendering_pass self title subtitle content_callback data)
         st.
Proof.
  unfold create_report, counting_pass, rendering_pass, counting_prologue,
    rendering_prologue, bind, make_canvas, set_current_page, set_total_pages,
    showPage, on_canvas, get_current_page, ret.
  repeat match goal with
         | |- context [match ?x with (_, _) => _ end] =>
             destruct x as [[? | ?] ?]
         end; reflexivity.
Qed.

Lemma counting_prologue_returned (title : string) (subtitle : option string)
    (st st1 : State) (y : float) :
  counting_prologue self title subtitle st = (Returned y, st1) ->
  let header_data :=
    mkHeaderData title subtitle (clock st (reads st)) (logo_path self) in
  header_component self header_data (fst (_page_size self)) = Returned y /\
  st1 = mkState 1 0
          (mkCanvas (_page_size self) (stamps st (made st))
                    [HeaderDraw header_data (fst (_page_size self))] []
                    empty_bytes)
          (clock st) (S (reads st)) (stamps st) (S (made st)).
Proof.
  unfold counting_prologue, bind, make_canvas, set_current_page,
    set_total_pages. intros H.
  apply _draw_header_returned in H as [Hh ->].
  split; [exact Hh | reflexivity].
Qed.

Lemma rendering_prologue_returned (title : string) (subtitle : option string)
    (st st1 : State) (y : float) :
  rendering_prologue self title subtitle st = (Returned y, st1) ->
  let header_data :=
    mkHeaderData title subtitle (clock st (reads st)) (logo_path self) in
  let w := fst (_page_size self) in
  header_component self header_data w = Returned y /\
  st1 = mkState 1 (_total_pages st)
          (mkCanvas (_page_size self) (stamps st (made st))
                    [HeaderDraw header_data w;
                     FooterDraw (mkFooterData true (_total_pages st)) 1 w]
                    [] empty_bytes)
          (clock st) (S (reads st)) (stamps st) (S (made st)).
Proof.
  unfold rendering_prologue. intros H.
  apply bind_returned in H as ([] & st0 & H0 & H).
  unfold make_canvas in H0. inversion H0; subst; clear H0.
  apply bind_returned in H as ([] & st0 & H0 & H).
  unfold set_current_page in H0. inversion H0; subst; clear H0.
  apply bind_returned in H as (y0 & st0 & H0 & H).
  apply _draw_header_returned in H0 as [Hh ->].
  apply bind_returned in H as (u & st0 & H0 & H).
  apply _draw_footer_returned in H0 as [_ ->].
  unfold ret in H. inversion H; subst.
  split; [exact Hh | reflexivity].
Qed.

(** After a counting pass that returns: the recorded total is the page
    counter, one more than the page breaks of the callback; the surface
    holds that many closed pages, the first without a footer and every
    later one with the footer [new_page] drew, whose total is 0. *)
Lemma counting_pass_returned (title : string) (subtitle : option string)
    (content_callback : option Callback) (data : option Data)
    (st st2 : State) (u : unit) :
  counting_pass self title subtitle content_callback data st
  = (Returned u, st2) ->
  let n := counting_breaks self title subtitle content_callback data st in
  _total_pages st2 = Z.of_nat n + 1 /\
  _current_page st2 = _total_pages st2 /\
  List.length (_doc (canvas st2)) = (n + 1)%nat /\
  _code (canvas st2) = [] /\
  numbered self 0 [] (_doc (canvas st2)).
Proof.
  unfold counting_pass, counting_breaks. intros H.
  apply bind_returned in H as (y & st1 & H1 & H).
  rewrite H1.
  apply counting_prologue_returned in H1 as [_ E1].
  apply bind_returned in H as (u1 & st1' & Hi & H).
  apply (invoke_advances 0 []) in Hi.
  destruct Hi as ((It & Ic & In & If) & Hc & _).
  { subst st1. repeat split; simpl; try reflexivity.
    intros [ | i] page Hi; discriminate Hi. }
  set (n := callback_breaks self content_callback (Returned y, st1) data true)
    in *.
  unfold bind, showPage, on_canvas, get_current_page, set_total_pages in H.
  inversion H; subst st2; clear H. simpl.
  subst st1. cbn [_current_page] in Hc.
  split; [lia | split; [reflexivity | split; [ | split; [reflexivity | ]]]].
  - rewrite length_app. simpl. lia.
  - apply numbered_snoc; assumption.
Qed.

(** After a rendering pass that returns: the bytes are the buffer of its
    canvas, one page more than the page breaks of the callback, every page
    with exactly the footer of its number and of the total in force, and
    the first page opening with the header and that footer. *)
Lemma rendering_pass_returned (title : string) (subtitle : option string)
    (content_callback : option Callback) (data : option Data)
    (st st' : State) (out : bytes) :
  rendering_pass self title subtitle content_callback data st
  = (Returned out, st') ->
  let n := callback_breaks self content_callback
             (rendering_prologue self title subtitle st) data false in
  let w := fst (_page_size self) in
  let header_data :=
    mkHeaderData title subtitle (clock st (reads st)) (logo_path self) in
  let footer := FooterDraw (mkFooterData true (_total_pages st)) 1 w in
  out = buffer (canvas st') /\
  doc_stamp out = Some (stamps st (made st)) /\
  _total_pages st' = _total_pages st /\
  _current_page st' = Z.of_nat n + 1 /\
  List.length (doc_pages out) = (n + 1)%nat /\
  numbered self (_total_pages st) [footer] (doc_pages out) /\
  exists rest more,
    doc_pages out = (HeaderDraw header_data w :: footer :: rest) :: more.
Proof.
  unfold rendering_pass. intros H.
  apply bind_returned in H as (y & st1 & H1 & H).
  rewrite H1.
  apply rendering_prologue_returned in H1 as [_ E1].
  apply bind_returned in H as (u1 & st1' & Hi & H).
  pose proof (invoke_keeps_stamp content_callback y data false st1) as Hk.
  rewrite Hi in Hk. cbn [snd] in Hk.
  apply (invoke_advances (_total_pages st)
           [FooterDraw (mkFooterData true (_total_pages st)) 1
                       (fst (_page_size self))]) in Hi.
  destruct Hi as ((It & Ic & In & If) & Hc & rest & Hr).
  { subst st1. repeat split; simpl; try reflexivity.
    intros [ | i] page Hi; discriminate Hi. }
  set (n := callback_breaks self content_callback (Returned y, st1) data false)
    in *.
  assert (Hne : _code (canvas st1') <> []).
  { intros E. rewrite E in If. simpl in If.
    destruct (List.length (_doc (canvas st1'))); discriminate If. }
  assert (Hs : Canvas_save (canvas st1')
               = mkCanvas (_pagesize (canvas st1')) (_timeStamp (canvas st1'))
                   []
                   (_doc (canvas st1') ++ [_code (canvas st1')])
                   (mkBytes (Some (_timeStamp (canvas st1')))
                            (_doc (canvas st1') ++ [_code (canvas st1')]))).
  { unfold Canvas_save, Canvas_showPage.
    destruct (_code (canvas st1')) eqn:E.
    - contradiction Hne. reflexivity.
    - reflexivity. }
  unfold bind, save, on_canvas, getvalue in H. rewrite Hs in H.
  inversion H; subst out st'; clear H.
  simpl. subst st1. cbn [_current_page] in Hc.
  unfold first_page at 2 in Hr. cbn [canvas _doc _code] in Hr.
  cbn [canvas _timeStamp] in Hk.
  split; [reflexivity | split; [rewrite Hk; reflexivity | ]].
  split; [exact It | split; [lia | split; [ | split]]].
  - rewrite length_app. simpl. lia.
  - apply numbered_snoc; assumption.
  - unfold first_page in Hr. destruct (_doc (canvas st1')) as [ | p ps].
    + simpl. rewrite Hr. simpl. exists rest, []. reflexivity.
    + simpl. rewrite Hr. simpl. exists rest, (ps ++ [_code (canvas st1')]).
      reflexivity.
Qed.

(** ** Runs from states that agree *)

Lemma respects_ret {A : Type} (a : A) : respects (ret a : M A).
Proof. intros st1 st2 H. split; [reflexivity | exact H]. Qed.

Lemma respects_raise {A : Type} (e : Exception) : respects (raise e : M A).
Proof. intros st1 st2 H. split; [reflexivity | exact H]. Qed.

Lemma respects_bind {A B : Type} (m : M A) (k : A -> M B) :
  respects m -> (forall a, respects (k a)) -> respects (bind m k).
Proof.
  intros Hm Hk st1 st2 H. unfold bind.
  destruct (Hm st1 st2 H) as [Hr Hs].
  destruct (m st1) as [[a1 | e1] st1'], (m st2) as [[a2 | e2] st2'];
    simpl in Hr, Hs; try discriminate Hr.
  - inversion Hr; subst a2. apply Hk. exact Hs.
  - inversion Hr; subst e2. split; [reflexivity | exact Hs].
Qed.

Lemma respects_get_current_page : respects (get_current_page : M Z).
Proof.
  intros st1 st2 H. split; [ | exact H].
  destruct H as (Hc & _). simpl. rewrite Hc. reflexivity.
Qed.

Lemma respects_get_total_pages : respects (get_total_pages : M Z).
Proof.
  intros st1 st2 H. split; [ | exact H].
  destruct H as (_ & Ht & _). simpl. rewrite Ht. reflexivity.
Qed.

Lemma respects_set_current_page (n : Z) :
  respects (set_current_page n : M unit).
Proof.
  intros st1 st2 (Hc & Ht & Hv & Hk & Hs). split; [reflexivity | ].
  repeat split; simpl; assumption.
Qed.

Lemma respects_set_total_pages (n : Z) :
  respects (set_total_pages n : M unit).
Proof.
  intros st1 st2 (Hc & Ht & Hv & Hk & Hs). split; [reflexivity | ].
  repeat split; simpl; assumption.
Qed.

Lemma respects_make_canvas (pagesize : float * float) :
  respects (make_canvas pagesize : M unit).
Proof.
  intros st1 st2 (Hc & Ht & Hv & Hk & Hs). split; [reflexivity | ].
  repeat split; simpl; try assumption.
  - specialize (Hs 0%nat). rewrite !Nat.add_0_r in Hs.
    rewrite Hs. reflexivity.
  - intros k. specialize (Hs (S k)). rewrite !Nat.add_succ_r in Hs.
    exact Hs.
Qed.

Lemma respects_on_canvas (f : Canvas -> Canvas) :
  respects (on_canvas f : M unit).
Proof.
  intros st1 st2 (Hc & Ht & Hv & Hk & Hs). split; [reflexivity | ].
  repeat split; simpl; try assumption. rewrite Hv. reflexivity.
Qed.

Lemma respects_getvalue : respects (getvalue : M bytes).
Proof.
  intros st1 st2 H. split; [ | exact H].
  destruct H as (_ & _ & Hv & _). simpl. rewrite Hv. reflexivity.
Qed.

Lemma respects_now_strftime : respects (now_strftime : M string).
Proof.
  intros st1 st2 (Hc & Ht & Hv & Hk & Hs). split.
  - simpl. specialize (Hk 0%nat). rewrite !Nat.add_0_r in Hk.
    rewrite Hk. reflexivity.
  - repeat split; simpl; try assumption.
    intros k. specialize (Hk (S k)). rewrite !Nat.add_succ_r in Hk.
    exact Hk.
Qed.

Lemma respects_component_draw {A : Type} (c : DrawCall) (r : Result A) :
  respects (component_draw c r).
Proof.
  destruct r as [a | e]; simpl.
  - apply respects_bind; [apply respects_on_canvas | ].
    intros _. apply respects_ret.
  - apply respects_raise.
Qed.

Lemma respects_draw_header (title : string) (subtitle : option string) :
  respects (_draw_header self title subtitle).
Proof.
  apply respects_bind; [apply respects_now_strftime | ].
  intros d. apply respects_component_draw.
Qed.

Lemma respects_draw_footer : respects (_draw_footer self).
Proof.
  apply respects_bind; [apply respects_get_total_pages | ].
  intros t. apply respects_bind; [apply respects_get_current_page | ].
  intros c. apply respects_component_draw.
Qed.

Lemma respects_new_page (title : string) (subtitle : option string) :
  respects (new_page self title subtitle).
Proof.
  apply respects_bind; [apply respects_on_canvas | intros _].
  apply respects_bind; [apply respects_get_current_page | intros c].
  apply respects_bind; [apply respects_set_current_page | intros _].
  apply respects_bind; [apply respects_draw_header | intros y].
  apply respects_bind; [apply respects_draw_footer | intros _].
  apply respects_ret.
Qed.

Lemma respects_check_page_break (current_y needed_height : float)
    (title : string) (subtitle : option string) :
  respects (check_page_break self current_y needed_height title subtitle).
Proof.
  unfold check_page_break.
  destruct (Float.ltb (Float.sub current_y needed_height) (min_y self)).
  - apply respects_new_page.
  - apply respects_ret.
Qed.

Lemma respects_draw_performance_bars (bars : list PerformanceBarData)
    (label_width : float) (bar_width : option float) :
  forall y, respects (draw_performance_bars self y bars label_width bar_width).
Proof.
  induction bars as [ | bar_data bars IH]; intros y; simpl.
  - apply respects_ret.
  - apply respects_bind; [apply respects_component_draw | exact IH].
Qed.

Lemma respects_run (p : Prog) : respects (run self p).
Proof.
  induction p; simpl;
    try (apply respects_bind;
         [first [ apply respects_new_page
                | apply respects_check_page_break
                | apply respects_component_draw
                | apply respects_draw_performance_bars
                | apply respects_get_current_page
                | apply respects_get_total_pages ]
         | intros; auto ]).
  - apply respects_ret.
  - apply respects_raise.
Qed.

Lemma respects_invoke (content_callback : option Callback) (start_y : float)
    (data : option Data) (counting_only : bool) :
  respects (invoke self content_callback start_y data counting_only).
Proof.
  destruct content_callback as [callback | ]; simpl.
  - apply respects_bind; [apply respects_run | intros _; apply respects_ret].
  - apply respects_ret.
Qed.

Lemma respects_create_report (title : string) (subtitle : option string)
    (content_callback : option Callback) (data : option Data) :
  respects (create_report self title subtitle content_callback data).
Proof.
  unfold create_report.
  repeat (apply respects_bind;
          [first [ apply respects_make_canvas
                 | apply respects_set_current_page
                 | apply respects_set_total_pages
                 | apply respects_draw_header
                 | apply respects_draw_footer
                 | apply respects_invoke
                 | apply respects_on_canvas
                 | apply respects_get_current_page ]
          | intros ? ]).
  apply respects_getvalue.
Qed.

(** [create_report] starts by overwriting the counters and the canvas:
    what they held before is not read. *)
Lemma create_report_reset (title : string) (subtitle : option string)
    (content_callback : option Callback) (data : option Data) (st : State) :
  create_report self title subtitle content_callback data st
  = create_report self title subtitle content_callback data
      (mkState 1 0 (new_Canvas (_page_size self) 0) (clock st) (reads st)
               (stamps st) (made st)).
Proof. reflexivity. Qed.

(** ** Reports that cannot fail *)

Lemma returns_ret {A : Type} (a : A) : returns (ret a : M A).
Proof. intros st. exists a, st. reflexivity. Qed.

Lemma returns_bind {A B : Type} (m : M A) (k : A -> M B) :
  returns m -> (forall a, returns (k a)) -> returns (bind m k).
Proof.
  intros Hm Hk st. destruct (Hm st) as (a & st1 & H1).
  rewrite (bind_eq_returned _ _ _ _ _ H1). apply Hk.
Qed.

Lemma returns_state {A : Type} (f : State -> A) (g : State -> State) :
  returns (fun st => (Returned (f st), g st)).
Proof. intros st. exists (f st), (g st). reflexivity. Qed.

Lemma returns_component_draw {A : Type} (c : DrawCall) (r : Result A) :
  (exists a, r = Returned a) -> returns (component_draw c r).
Proof.
  intros [a ->]. simpl.
  apply returns_bind; [apply returns_state | intros _; apply returns_ret].
Qed.

Lemma returns_draw_header (title : string) (subtitle : option string) :
  components_return self -> returns (_draw_header self title subtitle).
Proof.
  intros (Hh & _).
  apply returns_bind; [apply returns_state | ].
  intros d. apply returns_component_draw, Hh.
Qed.

Lemma returns_draw_footer :
  components_return self -> returns (_draw_footer self).
Proof.
  intros (_ & Hf & _).
  apply returns_bind; [apply returns_state | intros t].
  apply returns_bind; [apply returns_state | intros c].
  apply returns_component_draw, Hf.
Qed.

Lemma returns_new_page (title : string) (subtitle : option string) :
  components_return self -> returns (new_page self title subtitle).
Proof.
  intros HC.
  apply returns_bind; [apply returns_state | intros _].
  apply returns_bind; [apply returns_state | intros c].
  apply returns_bind; [apply returns_state | intros _].
  apply returns_bind; [apply returns_draw_header, HC | intros y].
  apply returns_bind; [apply returns_draw_footer, HC | intros _].
  apply returns_ret.
Qed.

Lemma returns_check_page_break (current_y needed_height : float)
    (title : string) (subtitle : option string) :
  components_return self ->
  returns (check_page_break self current_y needed_height title subtitle).
Proof.
  intros HC. unfold check_page_break.
  destruct (Float.ltb (Float.sub current_y needed_height) (min_y self)).
  - apply returns_new_page, HC.
  - apply returns_ret.
Qed.

Lemma returns_draw_performance_bars (bars : list PerformanceBarData)
    (label_width : float) (bar_width : option float) :
  components_return self ->
  forall y, returns (draw_performance_bars self y bars label_width bar_width).
Proof.
  intros (_ & _ & _ & _ & _ & _ & Hp).
  induction bars as [ | bar_data bars IH]; intros y; simpl.
  - apply returns_ret.
  - apply returns_bind; [apply returns_component_draw, Hp | exact IH].
Qed.

Lemma returns_run (p : Prog) :
  components_return self -> never_raises p -> returns (run self p).
Proof.
  intros HC. pose proof HC as (Hh & Hf & Hs & Hi & Ht & Hr & Hp).
  induction p as [y0 | e | title subtitle k IH
                 | current_y needed_height title subtitle k IH
                 | y0 title show_line k IH
                 | y0 items title width x k IH
                 | y0 headers rows col_widths k IH
                 | center_x center_y data size k IH
                 | y0 data label_width bar_width x k IH
                 | y0 bars label_width bar_width k IH
                 | k IH | k IH];
    simpl; intros Hn.
  - apply returns_ret.
  - contradiction.
  - apply returns_bind; [apply returns_new_page, HC | ].
    intros y. apply IH, Hn.
  - apply returns_bind; [apply returns_check_page_break, HC | ].
    intros y. apply IH, Hn.
  - apply returns_bind; [apply returns_component_draw, Hs | ].
    intros y. apply IH, Hn.
  - apply returns_bind; [apply returns_component_draw, Hi | ].
    intros y. apply IH, Hn.
  - apply returns_bind; [apply returns_component_draw, Ht | ].
    intros y. apply IH, Hn.
  - apply returns_bind; [apply returns_component_draw, Hr | ].
    intros _. apply IH, Hn.
  - apply returns_bind; [apply returns_component_draw, Hp | ].
    intros y. apply IH, Hn.
  - apply returns_bind; [apply returns_draw_performance_bars, HC | ].
    intros y. apply IH, Hn.
  - apply returns_bind; [apply returns_state | ].
    intros n. apply IH, Hn.
  - apply returns_bind; [apply returns_state | ].
    intros n. apply IH, Hn.
Qed.

Lemma returns_invoke (content_callback : option Callback) (start_y : float)
    (data : option Data) (counting_only : bool) :
  components_return self ->
  (forall callback,
      content_callback = Some callback ->
      never_raises (callback start_y data counting_only)) ->
  returns (invoke self content_callback start_y data counting_only).
Proof.
  intros HC Hn. destruct content_callback as [callback | ]; simpl.
  - apply returns_bind; [ | intros _; apply returns_ret].
    apply returns_run; [exact HC | apply Hn; reflexivity].
  - apply returns_ret.
Qed.

(** With components that always return and a callback that never raises,
    [create_report] returns a document. *)
Lemma create_report_returns (title : string) (subtitle : option string)
    (content_callback : option Callback) (data : option Data) :
  components_return self ->
  (forall callback start_y counting_only,
      content_callback = Some callback ->
      never_raises (callback start_y data counting_only)) ->
  returns (create_report self title subtitle content_callback data).
Proof.
  intros HC Hn. unfold create_report.
  repeat (apply returns_bind;
          [first [ apply returns_state
                 | apply returns_draw_header, HC
                 | apply returns_draw_footer, HC
                 | apply returns_invoke; [exact HC | intros cb E; eapply Hn, E] ]
          | intros ? ]).
  apply returns_state.
Qed.

(** ** The report as a whole *)

(** What a [create_report] that returns has produced, in terms of the
    page breaks of the callback in each pass. *)
Lemma create_report_returned (title : string) (subtitle : option string)
    (content_callback : option Callback) (data : option Data)
    (st st' : State) (out : bytes) :
  create_report self title subtitle content_callback data st
  = (Returned out, st') ->
  let nc := counting_breaks self title subtitle content_callback data st in
  let nr := rendering_breaks self title subtitle content_callback data st in
  let w := fst (_page_size self) in
  let total := Z.of_nat nc + 1 in
  _total_pages st' = total /\
  List.length (doc_pages out) = (nr + 1)%nat /\
  (forall i page,
      nth_error (doc_pages out) i = Some page ->
      footers page = [FooterDraw (mkFooterData true total) (Z.of_nat i + 1) w]) /\
  exists date rest more,
    doc_pages out
    = (HeaderDraw (mkHeaderData title subtitle date (logo_path self)) w
       :: FooterDraw (mkFooterData true total) 1 w :: rest) :: more.
Proof.
  intros H. rewrite create_report_passes in H.
  apply bind_returned in H as (u & st1 & H1 & H2).
  unfold rendering_breaks. rewrite H1. simpl snd.
  apply counting_pass_returned in H1 as (Ht & _).
  apply rendering_pass_returned in H2 as (_ & _ & Ht' & _ & Hl & Hn & Hh).
  rewrite Ht in *.
  split; [exact Ht' | split; [exact Hl | split]].
  - intros i page Hi. rewrite (Hn i page Hi).
    destruct i; reflexivity.
  - destruct Hh as (rest & more & Ho). eauto.
Qed.

(** C1: a callback that makes N page breaks in the counting pass and as
    many in the rendering pass gives a document of N+1 pages, the total
    recorded is N+1, and page i carries exactly one footer, drawn with
    page number i and total N+1. *)
Theorem create_report_page_count (title : string) (subtitle : option string)
    (content_callback : option Callback) (data : option Data)
    (st st' : State) (out : bytes) (N : nat) :
  create_report self title subtitle content_callback data st
  = (Returned out, st') ->
  counting_breaks self title subtitle content_callback data st = N ->
  rendering_breaks self title subtitle content_callback data st = N ->
  List.length (doc_pages out) = (N + 1)%nat /\
  _total_pages st' = Z.of_nat N + 1 /\
  forall i page,
    nth_error (doc_pages out) i = Some page ->
    footers page
    = [FooterDraw (mkFooterData true (Z.of_nat N + 1)) (Z.of_nat i + 1)
                  (page_width self)].
Proof.
  intros H Hc Hr.
  apply create_report_returned in H. rewrite Hc, Hr in H.
  destruct H as (Ht & Hl & Hf & _).
  split; [exact Hl | split; [exact Ht | exact Hf]].
Qed.

(** C7: with no callback, or with one that makes no page break in either
    pass, the document is a single page that opens with the header and the
    footer "1 of 1", has no other footer, and the total recorded is 1. *)
Theorem create_report_single_page (title : string) (subtitle : option string)
    (content_callback : option Callback) (data : option Data)
    (st st' : State) (out : bytes) :
  create_report self title subtitle content_callback data st
  = (Returned out, st') ->
  content_callback = None \/
  (counting_breaks self title subtitle content_callback data st = 0%nat /\
   rendering_breaks self title subtitle content_callback data st = 0%nat) ->
  _total_pages st' = 1 /\
  exists date rest,
    let header :=
      HeaderDraw (mkHeaderData title subtitle date (logo_path self))
                 (page_width self) in
    let footer := FooterDraw (mkFooterData true 1) 1 (page_width self) in
    doc_pages out = [header :: footer :: rest] /\
    footers (header :: footer :: rest) = [footer].
Proof.
  intros H Hz.
  assert (Hc : counting_breaks self title subtitle content_callback data st
               = 0%nat /\
               rendering_breaks self title subtitle content_callback data st
               = 0%nat).
  { destruct Hz as [-> | Hz]; [split; reflexivity | exact Hz]. }
  destruct Hc as [Hc Hr].
  apply create_report_returned in H. rewrite Hc, Hr in H. simpl in H.
  destruct H as (Ht & Hl & Hf & date & rest & more & Ho).
  split; [exact Ht | ].
  exists date, rest. cbv zeta.
  rewrite Ho in Hl, Hf |- *.
  destruct more as [ | p more]; [ | discriminate Hl].
  split; [reflexivity | ].
  exact (Hf 0%nat _ eq_refl).
Qed.

(** C4: [create_report] makes two passes.  The callback runs first with
    [counting_only] true on a canvas that holds the header; the page
    counter it leaves is recorded as the total.  It runs again with
    [counting_only] false on a second canvas, made anew, that holds the
    header and the footer with that total and nothing of the first
    canvas.  The bytes returned are the buffer of the second canvas after
    [save]: its time stamp with the pages it holds once the callback has
    run on it, the page being built closed. *)
Theorem create_report_two_passes (title : string) (subtitle : option string)
    (content_callback : option Callback) (data : option Data)
    (st sb st3 : State) (y0 y1 : float) (u : unit) :
  header_component self (header_at self title subtitle st)
                   (fst (_page_size self))
  = Returned y0 ->
  callback_runs self content_callback y0 data true
                (counting_start self title subtitle st) sb ->
  header_component self (header_at self title subtitle sb)
                   (fst (_page_size self))
  = Returned y1 ->
  footer_component self (mkFooterData true (_current_page sb)) 1
                   (fst (_page_size self))
  = Returned u ->
  callback_runs self content_callback y1 data false
                (rendering_start self title subtitle sb) st3 ->
  create_report self title subtitle content_callback data st
  = (Returned (mkBytes (Some (stamps sb (made sb)))
                       (_doc (canvas st3) ++ [_code (canvas st3)])),
     with_canvas (Canvas_save (canvas st3)) st3) /\
  _total_pages st3 = _current_page sb /\
  buffer (Canvas_save (canvas st3))
  = mkBytes (Some (stamps sb (made sb)))
            (_doc (canvas st3) ++ [_code (canvas st3)]) /\
  forall cv,
    rendering_start self title subtitle (with_canvas cv sb)
    = rendering_start self title subtitle sb.
Proof.
  intros Hh0 Hr0 Hh1 Hf1 Hr1.
  assert (I0 : invoke self content_callback y0 data true
                 (counting_start self title subtitle st)
               = (Returned tt, sb)).
  { destruct content_callback as [callback | ]; simpl in Hr0 |- *.
    - destruct Hr0 as [y Hr0]. rewrite (bind_eq_returned _ _ _ _ _ Hr0).
      reflexivity.
    - subst sb. reflexivity. }
  assert (I1 : invoke self content_callback y1 data false
                 (rendering_start self title subtitle sb)
               = (Returned tt, st3)).
  { destruct content_callback as [callback | ]; simpl in Hr1 |- *.
    - destruct Hr1 as [y Hr1]. rewrite (bind_eq_returned _ _ _ _ _ Hr1).
      reflexivity.
    - subst st3. reflexivity. }
  assert (P0 : counting_prologue self title subtitle st
               = (Returned y0, counting_start self title subtitle st)).
  { unfold counting_prologue, bind, make_canvas, set_current_page,
      set_total_pages, _draw_header, now_strftime, bind. simpl.
    unfold header_at in Hh0. rewrite Hh0. reflexivity. }
  assert (C : counting_pass self title subtitle content_callback data st
              = (Returned tt,
                 mkState (_current_page sb) (_current_page sb)
                         (Canvas_showPage (canvas sb)) (clock sb) (reads sb)
                         (stamps sb) (made sb))).
  { unfold counting_pass. rewrite (bind_eq_returned _ _ _ _ _ P0).
    rewrite (bind_eq_returned _ _ _ _ _ I0). reflexivity. }
  assert (P1 : rendering_prologue self title subtitle
                 (mkState (_current_page sb) (_current_page sb)
                          (Canvas_showPage (canvas sb)) (clock sb) (reads sb)
                          (stamps sb) (made sb))
               = (Returned y1, rendering_start self title subtitle sb)).
  { unfold rendering_prologue, bind, make_canvas, set_current_page,
      _draw_header, now_strftime, bind, _draw_footer, get_total_pages,
      get_current_page, bind. simpl.
    unfold header_at in Hh1. rewrite Hh1. simpl. rewrite Hf1.
    destruct u. reflexivity. }
  pose proof (invoke_keeps_stamp content_callback y1 data false
                (rendering_start self title subtitle sb)) as Hk.
  rewrite I1 in Hk. cbn [snd rendering_start canvas _timeStamp] in Hk.
  pose proof (invoke_advances (_current_page sb)
                [FooterDraw (mkFooterData true (_current_page sb)) 1
                            (fst (_page_size self))]
                content_callback y1 data false _ _ _ I1) as Ha.
  destruct Ha as ((It & _ & _ & If) & _).
  { repeat split; simpl; try reflexivity.
    intros [ | i] page Hi; discriminate Hi. }
  assert (Hne : _code (canvas st3) <> []).
  { intros E. rewrite E in If. simpl in If.
    destruct (List.length (_doc (canvas st3))); discriminate If. }
  assert (Hs : Canvas_save (canvas st3)
               = mkCanvas (_pagesize (canvas st3)) (_timeStamp (canvas st3)) []
                   (_doc (canvas st3) ++ [_code (canvas st3)])
                   (mkBytes (Some (stamps sb (made sb)))
                            (_doc (canvas st3) ++ [_code (canvas st3)]))).
  { unfold Canvas_save, Canvas_showPage. rewrite Hk.
    destruct (_code (canvas st3)) eqn:E.
    - contradiction Hne. reflexivity.
    - reflexivity. }
  split; [ | split; [exact It | split; [ | intros cv; reflexivity]]].
  - rewrite create_report_passes. unfold bind at 1. rewrite C.
    unfold rendering_pass. rewrite (bind_eq_returned _ _ _ _ _ P1).
    rewrite (bind_eq_returned _ _ _ _ _ I1).
    unfold bind, save, on_canvas, getvalue. cbn [canvas with_canvas].
    rewrite Hs. reflexivity.
  - rewrite Hs. reflexivity.
Qed.

(** C3, as the code has it: [new_page] knows no pass; whenever it returns
    it has drawn, on the page it opened, the header and then the footer
    numbered with the incremented counter and the total then recorded.
    So the surface of a counting pass has no footer on its first page and
    on every later page the one footer drawn by [new_page], with total 0. *)
Theorem new_page_footer_in_both_passes (title : string)
    (subtitle : option string) (content_callback : option Callback)
    (data : option Data) :
  (forall (t : string) (s : option string) (st st' : State) (y : float),
      new_page self t s st = (Returned y, st') ->
      exists header_data,
        _code (canvas st')
        = [HeaderDraw header_data (page_width self);
           FooterDraw (mkFooterData true (_total_pages st))
                      (_current_page st + 1) (page_width self)]) /\
  (forall (st st1 : State) (u : unit),
      counting_pass self title subtitle content_callback data st
      = (Returned u, st1) ->
      forall i page,
        nth_error (_doc (canvas st1)) i = Some page ->
        footers page
        = match i with
          | O => []
          | S _ => [FooterDraw (mkFooterData true 0) (Z.of_nat i + 1)
                               (page_width self)]
          end).
Proof.
  split.
  - intros t s st st' y H. apply new_page_returned in H as [_ ->].
    simpl. eexists. reflexivity.
  - intros st st1 u H i page Hi.
    apply counting_pass_returned in H as (_ & _ & _ & _ & Hn).
    rewrite (Hn i page Hi). reflexivity.
Qed.

(** C2, as the code has it: the minimum offset is the bottom margin plus
    the footer height plus 10 mm; [check_page_break] is [new_page], and
    returns what the header of the new page returned, exactly when
    [current_y - needed_height < min_y]; in every other case, that is when
    [current_y - needed_height >= min_y] or when the comparison involves a
    NaN, it returns [current_y] and changes nothing. *)
Theorem check_page_break_spec (current_y needed_height : float)
    (title : string) (subtitle : option string) (st : State) :
  min_y self
  = Float.add (Float.add (page_margin_bottom (styles self))
                         (footer_height (styles self)))
              (Float.mul (Float.of_int 10) Units.mm) /\
  (Float.geb (Float.sub current_y needed_height) (min_y self) = true ->
   check_page_break self current_y needed_height title subtitle st
   = (Returned current_y, st)) /\
  (Float.ltb (Float.sub current_y needed_height) (min_y self) = false ->
   check_page_break self current_y needed_height title subtitle st
   = (Returned current_y, st)) /\
  (Float.ltb (Float.sub current_y needed_height) (min_y self) = true ->
   check_page_break self current_y needed_height title subtitle st
   = new_page self title subtitle st /\
   forall y st',
     new_page self title subtitle st = (Returned y, st') ->
     header_component self
       (mkHeaderData title subtitle (clock st (reads st)) (logo_path self))
       (page_width self)
     = Returned y /\
     _current_page st' = _current_page st + 1).
Proof.
  split; [reflexivity | ].
  unfold check_page_break.
  split; [ | split].
  - intros H. apply geb_not_ltb in H. rewrite H. reflexivity.
  - intros ->. reflexivity.
  - intros ->. split; [reflexivity | ].
    intros y st' H. apply new_page_returned in H as [Hh ->].
    split; [exact Hh | reflexivity].
Qed.

(** C9: when [current_y - needed_height >= min_y], [check_page_break]
    returns [current_y] and leaves the state as it was: both page
    counters and the canvas. *)
Theorem check_page_break_no_effect (current_y needed_height : float)
    (title : string) (subtitle : option string) (st : State) :
  Float.geb (Float.sub current_y needed_height) (min_y self) = true ->
  check_page_break self current_y needed_height title subtitle st
  = (Returned current_y, st).
Proof.
  intros H. unfold check_page_break.
  rewrite (geb_not_ltb _ _ H). reflexivity.
Qed.

(** C10: with no bars, [draw_performance_bars] returns [y] and leaves the
    state, the canvas with it, as it was. *)
Theorem draw_performance_bars_nil (y label_width : float)
    (bar_width : option float) (st : State) :
  draw_performance_bars self y [] label_width bar_width st = (Returned y, st).
Proof. reflexivity. Qed.

(** C5, as the code has it: the bytes returned are a function of the
    arguments and of what the environment reads during the call: the
    dates read for the headers, and the time stamp the canvas takes when
    it is made, which dates the document and seeds its ID.  Two calls
    with the same title, subtitle, callback and data return the same
    outcome, byte for byte, whatever state each starts from, when each
    reading of the date and each time stamp in one call is what the
    corresponding one is in the other. *)
Theorem create_report_same_dates (title : string) (subtitle : option string)
    (content_callback : option Callback) (data : option Data)
    (st1 st2 : State) :
  (forall k, clock st1 (reads st1 + k)%nat = clock st2 (reads st2 + k)%nat) ->
  (forall k, stamps st1 (made st1 + k)%nat = stamps st2 (made st2 + k)%nat) ->
  fst (create_report self title subtitle content_callback data st1)
  = fst (create_report self title subtitle content_callback data st2).
Proof.
  intros H Hs.
  rewrite (create_report_reset title subtitle content_callback data st1).
  rewrite (create_report_reset title subtitle content_callback data st2).
  apply respects_create_report.
  repeat split; assumption.
Qed.

(** C6: the outcome of [create_report], bytes and final state, does not
    depend on the values the two page counters and the canvas had when it
    was called. *)
Theorem create_report_fresh_cursor (title : string) (subtitle : option string)
    (content_callback : option Callback) (data : option Data)
    (current1 total1 current2 total2 : Z) (canvas1 canvas2 : Canvas)
    (clk : nat -> string) (r : nat) (stm : nat -> Z) (m : nat) :
  create_report self title subtitle content_callback data
                (mkState current1 total1 canvas1 clk r stm m)
  = create_report self title subtitle content_callback data
                  (mkState current2 total2 canvas2 clk r stm m).
Proof.
  rewrite (create_report_reset title subtitle content_callback data
             (mkState current1 total1 canvas1 clk r stm m)).
  rewrite (create_report_reset title subtitle content_callback data
             (mkState current2 total2 canvas2 clk r stm m)).
  reflexivity.
Qed.

(** C8: when the callback raises in the counting pass, or in the
    rendering pass after a counting pass that returned, [create_report]
    raises the same exception and returns no bytes; the state it leaves is
    the state at the raise: nothing is run afterwards. *)
Theorem create_report_propagates (title : string) (subtitle : option string)
    (callback : Callback) (data : option Data) (st st' : State)
    (e : Exception) :
  (exists start_y st1,
      counting_prologue self title subtitle st = (Returned start_y, st1) /\
      run self (callback start_y data true) st1 = (Raised e, st')) \/
  (exists u st1 start_y st2,
      counting_pass self title subtitle (Some callback) data st
      = (Returned u, st1) /\
      rendering_prologue self title subtitle st1 = (Returned start_y, st2) /\
      run self (callback start_y data false) st2 = (Raised e, st')) ->
  create_report self title subtitle (Some callback) data st = (Raised e, st').
Proof.
  intros [(y & st1 & H1 & H2) | (u & st1 & y & st2 & H1 & H2 & H3)];
    rewrite create_report_passes.
  - unfold bind at 1. unfold counting_pass.
    rewrite (bind_eq_returned _ _ _ _ _ H1).
    unfold invoke, bind. rewrite H2. reflexivity.
  - unfold bind at 1. rewrite H1. unfold rendering_pass.
    rewrite (bind_eq_returned _ _ _ _ _ H2).
    unfold invoke, bind. rewrite H3. reflexivity.
Qed.

(** An exception raised by the header or the footer of [create_report]
    itself travels on in the same way. *)
Lemma create_report_header_raises (title : string) (subtitle : option string)
    (content_callback : option Callback) (data : option Data) (st st' : State)
    (e : Exception) :
  counting_prologue self title subtitle st = (Raised e, st') ->
  create_report self title subtitle content_callback data st = (Raised e, st').
Proof.
  intros H. rewrite create_report_passes.
  unfold bind at 1. unfold counting_pass.
  rewrite (bind_eq_raised _ _ _ _ _ H). reflexivity.
Qed.

End Properties.

(** * The model at work *)

(** The three-block scenario: three pages, footers 1 of 3 to 3 of 3. *)
Lemma create_report_page_count_witness :
  exists out st',
    create_report Demo.generator Demo.report_title Demo.report_subtitle
                  (Some Demo.three_blocks) None (Demo.fresh Demo.today)
    = (Returned out, st') /\
    counting_breaks Demo.generator Demo.report_title Demo.report_subtitle
                    (Some Demo.three_blocks) None (Demo.fresh Demo.today)
    = 2%nat /\
    rendering_breaks Demo.generator Demo.report_title Demo.report_subtitle
                     (Some Demo.three_blocks) None (Demo.fresh Demo.today)
    = 2%nat /\
    List.length (doc_pages out) = (2 + 1)%nat /\
    _total_pages st' = Z.of_nat 2 + 1 /\
    forall i page,
      nth_error (doc_pages out) i = Some page ->
      footers page
      = [FooterDraw (mkFooterData true (Z.of_nat 2 + 1)) (Z.of_nat i + 1)
                    (page_width Demo.generator)].
Proof.
  eexists. eexists.
  assert (H0 : create_report Demo.generator Demo.report_title
                 Demo.report_subtitle (Some Demo.three_blocks) None
                 (Demo.fresh Demo.today)
               = (Returned _, _)) by (vm_compute; reflexivity).
  assert (H1 : counting_breaks Demo.generator Demo.report_title
                 Demo.report_subtitle (Some Demo.three_blocks) None
                 (Demo.fresh Demo.today) = 2%nat)
    by (vm_compute; reflexivity).
  assert (H2 : rendering_breaks Demo.generator Demo.report_title
                 Demo.report_subtitle (Some Demo.three_blocks) None
                 (Demo.fresh Demo.today) = 2%nat)
    by (vm_compute; reflexivity).
  split; [exact H0 | split; [exact H1 | split; [exact H2 | ]]].
  exact (create_report_page_count Demo.generator Demo.report_title
           Demo.report_subtitle (Some Demo.three_blocks) None
           (Demo.fresh Demo.today) _ _ 2%nat H0 H1 H2).
Defined.

(** The one-block scenario: no page break, a single page. *)
Lemma create_report_single_page_witness :
  exists out st',
    create_report Demo.generator Demo.report_title Demo.report_subtitle
                  (Some Demo.one_block) None (Demo.fresh Demo.today)
    = (Returned out, st') /\
    counting_breaks Demo.generator Demo.report_title Demo.report_subtitle
                    (Some Demo.one_block) None (Demo.fresh Demo.today)
    = 0%nat /\
    rendering_breaks Demo.generator Demo.report_title Demo.report_subtitle
                     (Some Demo.one_block) None (Demo.fresh Demo.today)
    = 0%nat /\
    _total_pages st' = 1 /\
    exists date rest,
      doc_pages out
      = [HeaderDraw (mkHeaderData Demo.report_title Demo.report_subtitle
                                      date (logo_path Demo.generator))
                        (page_width Demo.generator)
             :: FooterDraw (mkFooterData true 1) 1 (page_width Demo.generator)
             :: rest].
Proof.
  eexists. eexists.
  assert (H0 : create_report Demo.generator Demo.report_title
                 Demo.report_subtitle (Some Demo.one_block) None
                 (Demo.fresh Demo.today)
               = (Returned _, _)) by (vm_compute; reflexivity).
  assert (H1 : counting_breaks Demo.generator Demo.report_title
                 Demo.report_subtitle (Some Demo.one_block) None
                 (Demo.fresh Demo.today) = 0%nat)
    by (vm_compute; reflexivity).
  assert (H2 : rendering_breaks Demo.generator Demo.report_title
                 Demo.report_subtitle (Some Demo.one_block) None
                 (Demo.fresh Demo.today) = 0%nat)
    by (vm_compute; reflexivity).
  split; [exact H0 | split; [exact H1 | split; [exact H2 | ]]].
  destruct (create_report_single_page Demo.generator Demo.report_title
              Demo.report_subtitle (Some Demo.one_block) None
              (Demo.fresh Demo.today) _ _ H0 (or_intror (conj H1 H2)))
    as (Ht & date & rest & Ho & _).
  split; [exact Ht | ].
  exists date, rest. exact Ho.
Defined.

(** The two passes of the three-block report, state by state. *)
Lemma create_report_two_passes_witness :
  header_component Demo.generator
    (header_at Demo.generator Demo.report_title Demo.report_subtitle
               (Demo.fresh Demo.today))
    (fst (_page_size Demo.generator))
  = Returned (Demo.f 500) /\
  callback_runs Demo.generator (Some Demo.three_blocks) (Demo.f 500) None true
    (counting_start Demo.generator Demo.report_title Demo.report_subtitle
                    (Demo.fresh Demo.today))
    Demo.counted_run /\
  _current_page Demo.counted_run = 3 /\
  callback_runs Demo.generator (Some Demo.three_blocks) (Demo.f 500) None
    false
    (rendering_start Demo.generator Demo.report_title Demo.report_subtitle
                     Demo.counted_run)
    Demo.rendered /\
  create_report Demo.generator Demo.report_title Demo.report_subtitle
                (Some Demo.three_blocks) None (Demo.fresh Demo.today)
  = (Returned
       (mkBytes (Some (stamps Demo.counted_run (made Demo.counted_run)))
                (_doc (canvas Demo.rendered) ++ [_code (canvas Demo.rendered)])),
     with_canvas (Canvas_save (canvas Demo.rendered)) Demo.rendered).
Proof.
  assert (H0 : header_component Demo.generator
                 (header_at Demo.generator Demo.report_title
                            Demo.report_subtitle (Demo.fresh Demo.today))
                 (fst (_page_size Demo.generator))
               = Returned (Demo.f 500)) by reflexivity.
  assert (H1 : callback_runs Demo.generator (Some Demo.three_blocks)
                 (Demo.f 500) None true
                 (counting_start Demo.generator Demo.report_title
                                 Demo.report_subtitle (Demo.fresh Demo.today))
                 Demo.counted_run)
    by (eexists; vm_compute; reflexivity).
  assert (H2 : header_component Demo.generator
                 (header_at Demo.generator Demo.report_title
                            Demo.report_subtitle Demo.counted_run)
                 (fst (_page_size Demo.generator))
               = Returned (Demo.f 500)) by reflexivity.
  assert (H3 : footer_component Demo.generator
                 (mkFooterData true (_current_page Demo.counted_run)) 1
                 (fst (_page_size Demo.generator))
               = Returned tt) by reflexivity.
  assert (H4 : callback_runs Demo.generator (Some Demo.three_blocks)
                 (Demo.f 500) None false
                 (rendering_start Demo.generator Demo.report_title
                                  Demo.report_subtitle Demo.counted_run)
                 Demo.rendered)
    by (eexists; vm_compute; reflexivity).
  split; [exact H0 | split; [exact H1 | split; [vm_compute; reflexivity | ]]].
  split; [exact H4 | ].
  exact (proj1 (create_report_two_passes Demo.generator Demo.report_title
                  Demo.report_subtitle (Some Demo.three_blocks) None
                  (Demo.fresh Demo.today) Demo.counted_run Demo.rendered
                  (Demo.f 500) (Demo.f 500) tt H0 H1 H2 H3 H4)).
Defined.

(** Footers in the counting pass: the surface of the counting pass of the
    three-block report has a footer on its second and on its third page,
    the ones [new_page] drew, with total 0.  So it is not the case that
    no footer is drawn while counting. *)
Lemma counting_pass_draws_footers :
  map footers (_doc (canvas Demo.counted))
  = [ [];
      [FooterDraw (mkFooterData true 0) 2 (page_width Demo.generator)];
      [FooterDraw (mkFooterData true 0) 3 (page_width Demo.generator)] ] /\
  ~ (forall page, In page (_doc (canvas Demo.counted)) -> footers page = []).
Proof.
  assert (E : map footers (_doc (canvas Demo.counted))
              = [ [];
                  [FooterDraw (mkFooterData true 0) 2
                              (page_width Demo.generator)];
                  [FooterDraw (mkFooterData true 0) 3
                              (page_width Demo.generator)] ])
    by (vm_compute; reflexivity).
  split; [exact E | ].
  intros H.
  assert (B : forallb (fun page => match footers page with
                                   | [] => true
                                   | _ :: _ => false
                                   end)
                      (_doc (canvas Demo.counted)) = false)
    by (vm_compute; reflexivity).
  assert (B' : forallb (fun page => match footers page with
                                    | [] => true
                                    | _ :: _ => false
                                    end)
                       (_doc (canvas Demo.counted)) = true).
  { apply forallb_forall. intros page Hp. rewrite (H page Hp). reflexivity. }
  rewrite B in B'. discriminate B'.
Qed.

(** The second page of that counting surface, through the theorem. *)
Lemma new_page_footer_in_both_passes_witness :
  counting_pass Demo.generator Demo.report_title Demo.report_subtitle
                (Some Demo.three_blocks) None (Demo.fresh Demo.today)
  = (Returned tt, Demo.counted) /\
  forall page,
    nth_error (_doc (canvas Demo.counted)) 1 = Some page ->
    footers page
    = [FooterDraw (mkFooterData true 0) (Z.of_nat 1 + 1)
                  (page_width Demo.generator)].
Proof.
  assert (H1 : counting_pass Demo.generator Demo.report_title
                 Demo.report_subtitle (Some Demo.three_blocks) None
                 (Demo.fresh Demo.today)
               = (Returned tt, Demo.counted)) by (vm_compute; reflexivity).
  split; [exact H1 | ].
  exact (proj2 (new_page_footer_in_both_passes Demo.generator
                  Demo.report_title Demo.report_subtitle
                  (Some Demo.three_blocks) None)
               (Demo.fresh Demo.today) Demo.counted tt H1 1%nat).
Defined.

(** A NaN offset: [nan - 300 >= min_y] does not hold, and yet no page is
    started; the offset comes back unchanged, where [new_page] would
    have returned 500.  So [check_page_break] does not start a page in
    every case in which [>=] fails. *)
Lemma check_page_break_nan :
  Float.geb (Float.sub Float.nan (Demo.f 300)) (min_y Demo.generator) = false /\
  check_page_break Demo.generator Float.nan (Demo.f 300) Demo.report_title
                   Demo.report_subtitle (Demo.fresh Demo.today)
  = (Returned Float.nan, Demo.fresh Demo.today) /\
  fst (new_page Demo.generator Demo.report_title Demo.report_subtitle
                (Demo.fresh Demo.today))
  = Returned (Demo.f 500) /\
  check_page_break Demo.generator Float.nan (Demo.f 300) Demo.report_title
                   Demo.report_subtitle (Demo.fresh Demo.today)
  <> new_page Demo.generator Demo.report_title Demo.report_subtitle
              (Demo.fresh Demo.today).
Proof.
  assert (E : check_page_break Demo.generator Float.nan (Demo.f 300)
                Demo.report_title Demo.report_subtitle (Demo.fresh Demo.today)
              = (Returned Float.nan, Demo.fresh Demo.today))
    by (vm_compute; reflexivity).
  assert (N : fst (new_page Demo.generator Demo.report_title
                     Demo.report_subtitle (Demo.fresh Demo.today))
              = Returned (Demo.f 500)) by (vm_compute; reflexivity).
  split; [vm_compute; reflexivity | split; [exact E | split; [exact N | ]]].
  intros H. rewrite E in H.
  apply (f_equal fst) in H. rewrite N in H. simpl in H.
  vm_compute in H. discriminate H.
Qed.

(** Both sides of the test, through the theorem: at a NaN nothing
    happens, and with 100 points left a block of 300 starts a page. *)
Lemma check_page_break_spec_witness :
  Float.ltb (Float.sub Float.nan (Demo.f 300)) (min_y Demo.generator) = false /\
  check_page_break Demo.generator Float.nan (Demo.f 300) Demo.report_title
                   Demo.report_subtitle (Demo.fresh Demo.today)
  = (Returned Float.nan, Demo.fresh Demo.today) /\
  Float.ltb (Float.sub (Demo.f 100) (Demo.f 300)) (min_y Demo.generator)
  = true /\
  check_page_break Demo.generator (Demo.f 100) (Demo.f 300) Demo.report_title
                   Demo.report_subtitle (Demo.fresh Demo.today)
  = new_page Demo.generator Demo.report_title Demo.report_subtitle
             (Demo.fresh Demo.today).
Proof.
  assert (H1 : Float.ltb (Float.sub Float.nan (Demo.f 300))
                         (min_y Demo.generator) = false)
    by (vm_compute; reflexivity).
  assert (H2 : Float.ltb (Float.sub (Demo.f 100) (Demo.f 300))
                         (min_y Demo.generator) = true)
    by (vm_compute; reflexivity).
  split; [exact H1 | split; [ | split; [exact H2 | ]]].
  - exact (proj1 (proj2 (proj2
             (check_page_break_spec Demo.generator Float.nan (Demo.f 300)
                Demo.report_title Demo.report_subtitle
                (Demo.fresh Demo.today)))) H1).
  - exact (proj1 (proj2 (proj2 (proj2
             (check_page_break_spec Demo.generator (Demo.f 100) (Demo.f 300)
                Demo.report_title Demo.report_subtitle
                (Demo.fresh Demo.today)))) H2)).
Defined.

(** With 500 points left a block of 300 fits. *)
Lemma check_page_break_no_effect_witness :
  Float.geb (Float.sub (Demo.f 500) (Demo.f 300)) (min_y Demo.generator)
  = true /\
  check_page_break Demo.generator (Demo.f 500) (Demo.f 300) Demo.report_title
                   Demo.report_subtitle (Demo.fresh Demo.today)
  = (Returned (Demo.f 500), Demo.fresh Demo.today).
Proof.
  assert (H : Float.geb (Float.sub (Demo.f 500) (Demo.f 300))
                        (min_y Demo.generator) = true)
    by (vm_compute; reflexivity).
  split; [exact H | ].
  exact (check_page_break_no_effect Demo.generator (Demo.f 500) (Demo.f 300)
           Demo.report_title Demo.report_subtitle (Demo.fresh Demo.today) H).
Defined.

(** Two reports across midnight: the same generator, the same arguments,
    a callback that is a function of its inputs, and the header of the
    second report carries the next day's date.  So equal arguments alone
    do not give equal output. *)
Lemma create_report_over_midnight :
  fst (create_report Demo.generator Demo.report_title Demo.report_subtitle
         (Some Demo.one_block) None (Demo.fresh Demo.over_midnight))
  <> fst (create_report Demo.generator Demo.report_title Demo.report_subtitle
            (Some Demo.one_block) None
            (snd (create_report Demo.generator Demo.report_title
                    Demo.report_subtitle (Some Demo.one_block) None
                    (Demo.fresh Demo.over_midnight)))).
Proof.
  vm_compute. intros H. discriminate H.
Qed.

(** Two reports in a row on the same day, the time stamps standing
    still, are the same. *)
Lemma create_report_same_dates_witness :
  (forall k,
      clock (Demo.fresh Demo.today) (reads (Demo.fresh Demo.today) + k)%nat
      = clock Demo.reported (reads Demo.reported + k)%nat) /\
  (forall k,
      stamps (Demo.fresh Demo.today) (made (Demo.fresh Demo.today) + k)%nat
      = stamps Demo.reported (made Demo.reported + k)%nat) /\
  fst (create_report Demo.generator Demo.report_title Demo.report_subtitle
         (Some Demo.three_blocks) None (Demo.fresh Demo.today))
  = fst (create_report Demo.generator Demo.report_title Demo.report_subtitle
           (Some Demo.three_blocks) None Demo.reported).
Proof.
  assert (H : forall k,
             clock (Demo.fresh Demo.today)
                   (reads (Demo.fresh Demo.today) + k)%nat
             = clock Demo.reported (reads Demo.reported + k)%nat)
    by (intros k; vm_compute; reflexivity).
  assert (Hs : forall k,
             stamps (Demo.fresh Demo.today)
                    (made (Demo.fresh Demo.today) + k)%nat
             = stamps Demo.reported (made Demo.reported + k)%nat)
    by (intros k; vm_compute; reflexivity).
  split; [exact H | split; [exact Hs | ]].
  exact (create_report_same_dates Demo.generator Demo.report_title
           Demo.report_subtitle (Some Demo.three_blocks) None
           (Demo.fresh Demo.today) Demo.reported H Hs).
Defined.

(** Two reports in a row on the same day, under time stamps that move
    on: the pages are the same and the bytes are not. *)
Lemma create_report_time_stamps_move :
  fst (create_report Demo.generator Demo.report_title Demo.report_subtitle
         (Some Demo.one_block) None (Demo.fresh_ticking Demo.today))
  <> fst (create_report Demo.generator Demo.report_title Demo.report_subtitle
            (Some Demo.one_block) None
            (snd (create_report Demo.generator Demo.report_title
                    Demo.report_subtitle (Some Demo.one_block) None
                    (Demo.fresh_ticking Demo.today)))).
Proof.
  vm_compute. intros H. discriminate H.
Qed.

(** An info block that raises in the counting pass, and a callback that
    raises in the rendering pass: each exception reaches the caller. *)
Lemma create_report_propagates_witness :
  (exists st',
      run Demo.generator_bad_block
          (Demo.one_block (Demo.f 500) None true)
          (counting_start Demo.generator_bad_block Demo.report_title
                          Demo.report_subtitle (Demo.fresh Demo.today))
      = (Raised "TypeError: malformed items"%string, st') /\
      create_report Demo.generator_bad_block Demo.report_title
                    Demo.report_subtitle (Some Demo.one_block) None
                    (Demo.fresh Demo.today)
      = (Raised "TypeError: malformed items"%string, st')) /\
  (exists st',
      create_report Demo.generator Demo.report_title Demo.report_subtitle
                    (Some Demo.failing_when_rendering) None
                    (Demo.fresh Demo.today)
      = (Raised "ValueError: malformed table"%string, st')).
Proof.
  split.
  - eexists.
    assert (H1 : counting_prologue Demo.generator_bad_block Demo.report_title
                   Demo.report_subtitle (Demo.fresh Demo.today)
                 = (Returned (Demo.f 500),
                    counting_start Demo.generator_bad_block Demo.report_title
                                   Demo.report_subtitle
                                   (Demo.fresh Demo.today)))
      by (vm_compute; reflexivity).
    assert (H2 : run Demo.generator_bad_block
                   (Demo.one_block (Demo.f 500) None true)
                   (counting_start Demo.generator_bad_block Demo.report_title
                                   Demo.report_subtitle
                                   (Demo.fresh Demo.today))
                 = (Raised "TypeError: malformed items"%string, _))
      by (vm_compute; reflexivity).
    split; [exact H2 | ].
    exact (create_report_propagates Demo.generator_bad_block
             Demo.report_title Demo.report_subtitle Demo.one_block None
             (Demo.fresh Demo.today) _ _
             (or_introl (ex_intro _ _ (ex_intro _ _ (conj H1 H2))))).
  - eexists.
    apply (create_report_propagates Demo.generator Demo.report_title
             Demo.report_subtitle Demo.failing_when_rendering None
             (Demo.fresh Demo.today)).
    right. eexists. eexists. eexists. eexists.
    split; [vm_compute; reflexivity | ].
    split; vm_compute; reflexivity.
Defined.

(** * Further properties of the generator *)

Section Accounting.

Context {PerformanceBarData RadarChartData Data : Type}.
Variable self : @PDFGenerator PerformanceBarData RadarChartData.

Local Abbreviation State := (@State PerformanceBarData RadarChartData).
Local Abbreviation M := (@M PerformanceBarData RadarChartData).
Local Abbreviation Prog := (@Prog PerformanceBarData RadarChartData).
Local Abbreviation Callback := (@Callback PerformanceBarData RadarChartData Data).
Local Abbreviation DrawCall := (@DrawCall PerformanceBarData RadarChartData).

(** ** Counters, clock and closed pages, whatever the outcome *)

Lemma accounts_refl (st : State) : accounts 0 st st.
Proof.
  repeat split; try lia.
  exists []. split; [symmetry; apply app_nil_r | reflexivity].
Qed.

Lemma accounts_trans (n m : nat) (st1 st2 st3 : State) :
  accounts n st1 st2 -> accounts m st2 st3 -> accounts (n + m) st1 st3.
Proof.
  intros (Ht & Hc & Hr & Hk & c1 & Hd & Hl)
         (Ht' & Hc' & Hr' & Hk' & c2 & Hd' & Hl').
  repeat split; try congruence; try lia.
  exists (c1 ++ c2). split.
  - rewrite Hd', Hd. symmetry. apply app_assoc.
  - rewrite length_app. lia.
Qed.

Lemma accounts_component_draw {A : Type} (c : DrawCall) (r : Result A)
    (st : State) :
  accounts 0 st (snd (component_draw c r st)).
Proof.
  destruct r as [a | e]; simpl; repeat split; simpl; try lia;
    try (exists []; split; [symmetry; apply app_nil_r | reflexivity]).
Qed.

Lemma accounts_new_page (title : string) (subtitle : option string)
    (st : State) :
  accounts 1 st (snd (new_page self title subtitle st)).
Proof.
  unfold new_page, bind, showPage, on_canvas, get_current_page,
    set_current_page, _draw_header, _draw_footer, now_strftime,
    get_total_pages, bind, component_draw, bind, on_canvas, ret, raise.
  simpl.
  destruct (header_component self _ _) as [y | e]; simpl;
    [destruct (footer_component self _ _ _) as [u | e]; simpl | ];
    (repeat split; simpl; try lia;
     try (exists [_code (canvas st)]; split; reflexivity)).
Qed.

Lemma accounts_check_page_break (current_y needed_height : float)
    (title : string) (subtitle : option string) (st : State) :
  accounts (if Float.ltb (Float.sub current_y needed_height) (min_y self)
            then 1 else 0)
           st
           (snd (check_page_break self current_y needed_height title subtitle
                                  st)).
Proof.
  unfold check_page_break.
  destruct (Float.ltb (Float.sub current_y needed_height) (min_y self)).
  - apply accounts_new_page.
  - apply accounts_refl.
Qed.

Lemma accounts_draw_performance_bars (bars : list PerformanceBarData)
    (label_width : float) (bar_width : option float) :
  forall (y : float) (st : State),
    accounts 0 st
      (snd (draw_performance_bars self y bars label_width bar_width st)).
Proof.
  induction bars as [ | bar_data bars IH]; intros y st; simpl.
  - apply accounts_refl.
  - unfold bind, draw_performance_bar.
    pose proof (accounts_component_draw
                  (PerformanceBarDraw (page_margin_left (styles self)) y
                                      bar_data label_width bar_width)
                  (performance_bar self (page_margin_left (styles self)) y
                                   bar_data label_width bar_width) st) as H1.
    destruct (component_draw _ _ st) as [[y1 | e] st1]; simpl in H1.
    + apply (accounts_trans 0 0 st st1 _ H1). apply IH.
    + exact H1.
Qed.

(** One call of the callback, then the rest of it. *)
Lemma accounts_step {A : Type} (m : M A) (k : A -> M float)
    (f : A -> State -> nat) (n : nat) (st : State) :
  accounts n st (snd (m st)) ->
  (forall a st1, accounts (f a st1) st1 (snd (k a st1))) ->
  accounts (n + and_then (m st) f) st (snd (bind m k st)).
Proof.
  intros H1 Hk. unfold bind.
  destruct (m st) as [[a | e] st1]; simpl in *.
  - apply accounts_trans with st1; [exact H1 | apply Hk].
  - rewrite Nat.add_0_r. exact H1.
Qed.

Lemma accounts_run (p : Prog) :
  forall st, accounts (page_breaks self p st) st (snd (run self p st)).
Proof.
  induction p as [y0 | e | title subtitle k IH
                 | current_y needed_height title subtitle k IH
                 | y0 title show_line k IH
                 | y0 items title width x k IH
                 | y0 headers rows col_widths k IH
                 | center_x center_y data size k IH
                 | y0 data label_width bar_width x k IH
                 | y0 bars label_width bar_width k IH
                 | k IH | k IH];
    intros st; simpl run; simpl page_breaks.
  - apply accounts_refl.
  - apply accounts_refl.
  - apply (accounts_step _ _ (fun y => page_breaks self (k y)) 1).
    + apply accounts_new_page.
    + intros y st1. apply IH.
  - apply (accounts_step _ _ (fun y => page_breaks self (k y))).
    + apply accounts_check_page_break.
    + intros y st1. apply IH.
  - apply (accounts_step _ _ (fun y => page_breaks self (k y)) 0).
    + apply accounts_component_draw.
    + intros y st1. apply IH.
  - apply (accounts_step _ _ (fun y => page_breaks self (k y)) 0).
    + apply accounts_component_draw.
    + intros y st1. apply IH.
  - apply (accounts_step _ _ (fun y => page_breaks self (k y)) 0).
    + apply accounts_component_draw.
    + intros y st1. apply IH.
  - apply (accounts_step _ _ (fun _ => page_breaks self k) 0).
    + apply accounts_component_draw.
    + intros y st1. apply IH.
  - apply (accounts_step _ _ (fun y => page_breaks self (k y)) 0).
    + apply accounts_component_draw.
    + intros y st1. apply IH.
  - apply (accounts_step _ _ (fun y => page_breaks self (k y)) 0).
    + apply accounts_draw_performance_bars.
    + intros y st1. apply IH.
  - unfold bind, current_page, get_current_page. apply IH.
  - unfold bind, total_pages, get_total_pages. apply IH.
Qed.

(** X1: whatever a callback does and however it ends, by returning or by
    raising, it leaves the total page count alone, and its page counter
    and the number of clock readings have grown by exactly the number of
    page breaks it made. *)
Theorem run_counts_page_breaks (p : Prog) (st : State) :
  _total_pages (snd (run self p st)) = _total_pages st /\
  _current_page (snd (run self p st))
  = _current_page st + Z.of_nat (page_breaks self p st) /\
  reads (snd (run self p st)) = (reads st + page_breaks self p st)%nat /\
  clock (snd (run self p st)) = clock st.
Proof.
  destruct (accounts_run p st) as (Ht & Hc & Hr & Hk & _).
  repeat split; assumption.
Qed.

(** X2: a callback never alters a page that is closed: the closed pages
    it leaves are the ones it found, followed by one more page for each
    page break it made, also when it ends by raising. *)
Theorem run_closes_one_page_per_break (p : Prog) (st : State) :
  exists closed,
    _doc (canvas (snd (run self p st))) = _doc (canvas st) ++ closed /\
    List.length closed = page_breaks self p st.
Proof.
  destruct (accounts_run p st) as (_ & _ & _ & _ & H). exact H.
Qed.

(** ** The byte buffer *)

Lemma keeps_buffer_ret {A : Type} (a : A) : keeps_buffer (ret a : M A).
Proof. intros st. reflexivity. Qed.

Lemma keeps_buffer_raise {A : Type} (e : Exception) :
  keeps_buffer (raise e : M A).
Proof. intros st. reflexivity. Qed.

Lemma keeps_buffer_bind {A B : Type} (m : M A) (k : A -> M B) :
  keeps_buffer m -> (forall a, keeps_buffer (k a)) -> keeps_buffer (bind m k).
Proof.
  intros Hm Hk st. unfold bind. specialize (Hm st).
  destruct (m st) as [[a | e] st1]; simpl in Hm.
  - rewrite Hk. exact Hm.
  - exact Hm.
Qed.

Lemma keeps_buffer_state {A : Type} (f : State -> A) (g : State -> State) :
  (forall st, buffer (canvas (g st)) = buffer (canvas st)) ->
  keeps_buffer (fun st => (Returned (f st), g st)).
Proof. intros H st. apply H. Qed.

Lemma keeps_buffer_component_draw {A : Type} (c : DrawCall) (r : Result A) :
  keeps_buffer (component_draw c r).
Proof. destruct r; intros st; reflexivity. Qed.

Lemma keeps_buffer_draw_header (title : string) (subtitle : option string) :
  keeps_buffer (_draw_header self title subtitle).
Proof.
  apply keeps_buffer_bind.
  - apply keeps_buffer_state. reflexivity.
  - intros d. apply keeps_buffer_component_draw.
Qed.

Lemma keeps_buffer_draw_footer : keeps_buffer (_draw_footer self).
Proof.
  apply keeps_buffer_bind; [apply keeps_buffer_state; reflexivity | ].
  intros t. apply keeps_buffer_bind; [apply keeps_buffer_state; reflexivity | ].
  intros c. apply keeps_buffer_component_draw.
Qed.

Lemma keeps_buffer_new_page (title : string) (subtitle : option string) :
  keeps_buffer (new_page self title subtitle).
Proof.
  apply keeps_buffer_bind; [apply keeps_buffer_state; reflexivity | intros _].
  apply keeps_buffer_bind; [apply keeps_buffer_state; reflexivity | intros c].
  apply keeps_buffer_bind; [apply keeps_buffer_state; reflexivity | intros _].
  apply keeps_buffer_bind; [apply keeps_buffer_draw_header | intros y].
  apply keeps_buffer_bind; [apply keeps_buffer_draw_footer | intros _].
  apply keeps_buffer_ret.
Qed.

Lemma keeps_buffer_check_page_break (current_y needed_height : float)
    (title : string) (subtitle : option string) :
  keeps_buffer (check_page_break self current_y needed_height title subtitle).
Proof.
  unfold check_page_break.
  destruct (Float.ltb (Float.sub current_y needed_height) (min_y self)).
  - apply keeps_buffer_new_page.
  - apply keeps_buffer_ret.
Qed.

Lemma keeps_buffer_draw_performance_bars (bars : list PerformanceBarData)
    (label_width : float) (bar_width : option float) :
  forall y,
    keeps_buffer (draw_performance_bars self y bars label_width bar_width).
Proof.
  induction bars as [ | bar_data bars IH]; intros y; simpl.
  - apply keeps_buffer_ret.
  - apply keeps_buffer_bind; [apply keeps_buffer_component_draw | exact IH].
Qed.

Lemma keeps_buffer_run (p : Prog) : keeps_buffer (run self p).
Proof.
  induction p; simpl;
    try (apply keeps_buffer_bind;
         [first [ apply keeps_buffer_new_page
                | apply keeps_buffer_check_page_break
                | apply keeps_buffer_component_draw
                | apply keeps_buffer_draw_performance_bars
                | apply keeps_buffer_state; reflexivity ]
         | intros; auto ]).
  - apply keeps_buffer_ret.
  - apply keeps_buffer_raise.
Qed.

Lemma keeps_buffer_invoke (content_callback : option Callback)
    (start_y : float) (data : option Data) (counting_only : bool) :
  keeps_buffer (invoke self content_callback start_y data counting_only).
Proof.
  destruct content_callback as [callback | ]; simpl.
  - apply keeps_buffer_bind; [apply keeps_buffer_run | ].
    intros _. apply keeps_buffer_ret.
  - apply keeps_buffer_ret.
Qed.

(** The part of each pass that follows the making of its canvas. *)
Lemma keeps_buffer_counting (title : string) (subtitle : option string)
    (content_callback : option Callback) (data : option Data) :
  keeps_buffer
    (bind (set_current_page 1)
       (fun _ => bind (set_total_pages 0)
       (fun _ => bind (_draw_header self title subtitle)
       (fun start_y => bind (invoke self content_callback start_y data true)
       (fun _ => bind showPage
       (fun _ => bind get_current_page
       (fun page => set_total_pages page))))))).
Proof.
  repeat (apply keeps_buffer_bind;
          [first [ apply keeps_buffer_draw_header
                 | apply keeps_buffer_invoke
                 | apply keeps_buffer_state; reflexivity ]
          | intros ? ]).
  apply keeps_buffer_state. reflexivity.
Qed.

Lemma keeps_buffer_rendering (title : string) (subtitle : option string)
    (content_callback : option Callback) (data : option Data) :
  keeps_buffer
    (bind (set_current_page 1)
       (fun _ => bind (_draw_header self title subtitle)
       (fun start_y => bind (_draw_footer self)
       (fun _ => invoke self content_callback start_y data false)))).
Proof.
  repeat (apply keeps_buffer_bind;
          [first [ apply keeps_buffer_draw_header
                 | apply keeps_buffer_draw_footer
                 | apply keeps_buffer_state; reflexivity ]
          | intros ? ]).
  apply keeps_buffer_invoke.
Qed.

Lemma counting_pass_on_new_canvas (title : string) (subtitle : option string)
    (content_callback : option Callback) (data : option Data) (st : State) :
  counting_pass self title subtitle content_callback data st
  = bind (set_current_page 1)
      (fun _ => bind (set_total_pages 0)
      (fun _ => bind (_draw_header self title subtitle)
      (fun start_y => bind (invoke self content_callback start_y data true)
      (fun _ => bind showPage
      (fun _ => bind get_current_page
      (fun page => set_total_pages page))))))
      (snd (make_canvas (_page_size self) st)).
Proof.
  unfold counting_pass, counting_prologue, bind, make_canvas, set_current_page,
    set_total_pages, showPage, on_canvas, get_current_page. cbn [snd].
  destruct (_draw_header self title subtitle _) as [[y | e] st1];
    [ | reflexivity].
  destruct (invoke self content_callback y data true st1) as [[u | e] st2];
    reflexivity.
Qed.

Lemma rendering_pass_on_new_canvas (title : string) (subtitle : option string)
    (content_callback : option Callback) (data : option Data) (st : State) :
  rendering_pass self title subtitle content_callback data st
  = bind (bind (set_current_page 1)
           (fun _ => bind (_draw_header self title subtitle)
           (fun start_y => bind (_draw_footer self)
           (fun _ => invoke self content_callback start_y data false))))
      (fun _ => bind save (fun _ => getvalue))
      (snd (make_canvas (_page_size self) st)).
Proof.
  unfold rendering_pass, rendering_prologue, bind, make_canvas,
    set_current_page, ret, save, on_canvas, getvalue. cbn [snd].
  destruct (_draw_header self title subtitle _) as [[y | e] st1];
    [ | reflexivity].
  destruct (_draw_footer self _) as [[u | e] st2]; reflexivity.
Qed.

(** X3: the counting pass writes no bytes: however it ends, the buffer of
    its canvas is empty, since that canvas is never saved. *)
Theorem counting_pass_writes_nothing (title : string)
    (subtitle : option string) (content_callback : option Callback)
    (data : option Data) (st : State) :
  buffer (canvas (snd (counting_pass self title subtitle content_callback
                                     data st)))
  = empty_bytes.
Proof.
  rewrite counting_pass_on_new_canvas.
  rewrite (keeps_buffer_counting title subtitle content_callback data).
  reflexivity.
Qed.

Lemma bind_raised_early {A B : Type} (m : M A) (k : A -> M B) (st : State)
    (e : Exception) :
  (forall a, returns (k a)) ->
  fst (bind m k st) = Raised e -> snd (bind m k st) = snd (m st).
Proof.
  intros Hk. unfold bind. destruct (m st) as [[a | e1] st1]; simpl.
  - destruct (Hk a st1) as (b & st2 & ->). intros H. discriminate H.
  - reflexivity.
Qed.

(** X4: when [create_report] raises, in either pass and whoever raised,
    there are no partial bytes: the buffer of the canvas then in use is
    empty. *)
Theorem create_report_raises_without_bytes (title : string)
    (subtitle : option string) (content_callback : option Callback)
    (data : option Data) (st : State) (e : Exception) :
  fst (create_report self title subtitle content_callback data st) = Raised e ->
  buffer (canvas (snd (create_report self title subtitle content_callback
                                     data st)))
  = empty_bytes.
Proof.
  rewrite create_report_passes.
  pose proof (counting_pass_writes_nothing title subtitle content_callback
                data st) as Hc.
  unfold bind.
  destruct (counting_pass self title subtitle content_callback data st)
    as [[u | e1] st1].
  - rewrite rendering_pass_on_new_canvas. intros H.
    rewrite (bind_raised_early _ _ _ e); [ | | exact H].
    + apply (keeps_buffer_rendering title subtitle content_callback data).
    + intros a st2. eexists. eexists. reflexivity.
  - intros _. exact Hc.
Qed.

End Accounting.

Section Bars.

Context {PerformanceBarData RadarChartData : Type}.
Variable self : @PDFGenerator PerformanceBarData RadarChartData.

Local Abbreviation State := (@State PerformanceBarData RadarChartData).

(** X5: drawing the bars of [bars1 ++ bars2] is drawing those of [bars1]
    and then, from the offset reached, those of [bars2]; if the first part
    raises, the second is not started. *)
Theorem draw_performance_bars_app (bars1 bars2 : list PerformanceBarData)
    (label_width : float) (bar_width : option float) :
  forall (y : float) (st : State),
    draw_performance_bars self y (bars1 ++ bars2) label_width bar_width st
    = bind (draw_performance_bars self y bars1 label_width bar_width)
           (fun y1 =>
              draw_performance_bars self y1 bars2 label_width bar_width)
           st.
Proof.
  induction bars1 as [ | bar_data bars1 IH]; intros y st; simpl.
  - reflexivity.
  - unfold bind at 1 2 3.
    destruct (draw_performance_bar self y bar_data label_width bar_width None
                                   st) as [[y1 | e] st1].
    + apply IH.
    + reflexivity.
Qed.

(** X6: when [draw_performance_bars] returns, it has added to the current
    page one bar call for each bar, in the order of the list, each at the
    left margin and with the label and bar widths given, the first one at
    [y]; it has closed no page.  With no bars [y] itself comes back. *)
Theorem draw_performance_bars_draws (bars : list PerformanceBarData)
    (label_width : float) (bar_width : option float) :
  forall (y y' : float) (st st' : State),
    draw_performance_bars self y bars label_width bar_width st
    = (Returned y', st') ->
    exists ys,
      List.length ys = List.length bars /\
      hd y' ys = y /\
      _code (canvas st')
      = _code (canvas st) ++ bar_calls self ys bars label_width bar_width /\
      _doc (canvas st') = _doc (canvas st).
Proof.
  induction bars as [ | bar_data bars IH]; intros y y' st st' H; simpl in H.
  - unfold ret in H. inversion H; subst.
    exists []. repeat split. symmetry. apply app_nil_r.
  - apply bind_returned in H as (y1 & st1 & H1 & H2).
    unfold draw_performance_bar in H1.
    apply component_draw_returned in H1 as [_ ->].
    destruct (IH _ _ _ _ H2) as (ys & Hl & _ & Hc & Hd).
    exists (y :: ys). simpl in *.
    split; [congruence | split; [reflexivity | split]].
    + rewrite Hc. unfold bar_calls. simpl. rewrite <- app_assoc. reflexivity.
    + exact Hd.
Qed.

(** X7: the bars are drawn one by one until one fails: when the bars of
    [bars1] have been drawn and the component raises on the next bar,
    [draw_performance_bars] raises that exception with the bars of
    [bars1] on the page, and draws none of the bars after. *)
Theorem draw_performance_bars_fails_fast (bars1 : list PerformanceBarData)
    (label_width : float) (bar_width : option float) :
  forall (y y1 : float) (st st1 : State) (bar_data : PerformanceBarData)
         (bars2 : list PerformanceBarData) (e : Exception),
    draw_performance_bars self y bars1 label_width bar_width st
    = (Returned y1, st1) ->
    performance_bar self (page_margin_left (styles self)) y1 bar_data
                    label_width bar_width
    = Raised e ->
    draw_performance_bars self y (bars1 ++ bar_data :: bars2) label_width
                          bar_width st
    = (Raised e, st1).
Proof.
  induction bars1 as [ | b bars1 IH];
    intros y y1 st st1 bar_data bars2 e H He; simpl in H.
  - unfold ret in H. inversion H; subst. simpl.
    unfold bind, draw_performance_bar. rewrite He. reflexivity.
  - apply bind_returned in H as (y0 & st0 & H0 & H).
    simpl. rewrite (bind_eq_returned _ _ _ _ _ H0).
    eapply IH; eassumption.
Qed.

End Bars.

Section Pages.

Context {PerformanceBarData RadarChartData Data : Type}.
Variable self : @PDFGenerator PerformanceBarData RadarChartData.

Local Abbreviation State := (@State PerformanceBarData RadarChartData).
Local Abbreviation Prog := (@Prog PerformanceBarData RadarChartData).
Local Abbreviation Callback := (@Callback PerformanceBarData RadarChartData Data).
Local Abbreviation DrawCall := (@DrawCall PerformanceBarData RadarChartData).

(** ** Failures of the header and of the footer *)

(** X8: when the first header cannot be drawn, [create_report] raises
    before the callback is invoked: the counters are left at 1 and 0, the
    canvas is a new one with nothing on it, and the clock was read once. *)
Theorem create_report_header_fails (title : string) (subtitle : option string)
    (content_callback : option Callback) (data : option Data) (st : State)
    (e : Exception) :
  header_component self
    (mkHeaderData title subtitle (clock st (reads st)) (logo_path self))
    (fst (_page_size self))
  = Raised e ->
  create_report self title subtitle content_callback data st
  = (Raised e,
     mkState 1 0 (new_Canvas (_page_size self) (stamps st (made st)))
             (clock st) (S (reads st)) (stamps st) (S (made st))).
Proof.
  intros H.
  unfold create_report, bind, make_canvas, set_current_page, set_total_pages,
    _draw_header, now_strftime, bind. simpl.
  rewrite H. reflexivity.
Qed.

(** X9: when the counting pass has returned and the footer of the first
    page cannot be drawn, [create_report] raises before the callback is
    invoked a second time: the total stays as the counting pass recorded
    it, the page counter is 1, and the new canvas holds the header
    alone. *)
Theorem create_report_footer_fails (title : string) (subtitle : option string)
    (content_callback : option Callback) (data : option Data)
    (st st1 : State) (u : unit) (y : float) (e : Exception) :
  counting_pass self title subtitle content_callback data st
  = (Returned u, st1) ->
  header_component self
    (mkHeaderData title subtitle (clock st1 (reads st1)) (logo_path self))
    (fst (_page_size self))
  = Returned y ->
  footer_component self (mkFooterData true (_total_pages st1)) 1
                   (fst (_page_size self))
  = Raised e ->
  create_report self title subtitle content_callback data st
  = (Raised e,
     mkState 1 (_total_pages st1)
       (mkCanvas (_page_size self) (stamps st1 (made st1))
          [HeaderDraw
             (mkHeaderData title subtitle (clock st1 (reads st1))
                           (logo_path self))
             (fst (_page_size self))] [] empty_bytes)
       (clock st1) (S (reads st1)) (stamps st1) (S (made st1))).
Proof.
  intros H1 Hh Hf.
  rewrite create_report_passes. unfold bind at 1. rewrite H1.
  unfold rendering_pass, rendering_prologue, bind, make_canvas,
    set_current_page, _draw_header, now_strftime, bind, _draw_footer,
    get_total_pages, get_current_page, bind. simpl.
  rewrite Hh. simpl. rewrite Hf. reflexivity.
Qed.

(** ** Pages and totals when the two passes differ *)

(** X10: whatever the callback does in each pass, a report that returns
    has one page more than the page breaks of the rendering pass, which
    is what the page counter is left at, while every footer prints the
    total of the counting pass; the total recorded is the number of pages
    exactly when the two passes made as many page breaks. *)
Theorem create_report_pages_and_total (title : string)
    (subtitle : option string) (content_callback : option Callback)
    (data : option Data) (st st' : State) (out : bytes) :
  create_report self title subtitle content_callback data st
  = (Returned out, st') ->
  let nc := counting_breaks self title subtitle content_callback data st in
  let nr := rendering_breaks self title subtitle content_callback data st in
  List.length (doc_pages out) = (nr + 1)%nat /\
  _current_page st' = Z.of_nat (List.length (doc_pages out)) /\
  (forall i page,
      nth_error (doc_pages out) i = Some page ->
      footers page
      = [FooterDraw (mkFooterData true (Z.of_nat nc + 1)) (Z.of_nat i + 1)
                    (page_width self)]) /\
  (_total_pages st' = Z.of_nat (List.length (doc_pages out)) <-> nc = nr).
Proof.
  intros H. cbv zeta.
  pose proof (create_report_returned self title subtitle content_callback
                data st st' out H) as (Ht & Hl & Hf & _).
  rewrite create_report_passes in H.
  apply bind_returned in H as (u & st1 & H1 & H2).
  pose proof (rendering_pass_returned self title subtitle content_callback
                data st1 st' out H2) as (_ & _ & _ & Hc & Hl' & _).
  split; [exact Hl | split; [ | split; [exact Hf | ]]].
  - rewrite Hl', Hc. lia.
  - rewrite Ht, Hl. lia.
Qed.

(** ** The layout of every page *)

Lemma well_opened_app (page cs : list DrawCall) :
  well_opened page = true -> forallb is_content cs = true ->
  well_opened (page ++ cs) = true.
Proof.
  destruct page as [ | [ | | | | | | ] [ | [ | | | | | | ] rest]];
    simpl; try discriminate.
  intros Hr Hcs. rewrite forallb_app, Hr, Hcs. reflexivity.
Qed.

Lemma adds_content_refl (st : State) : adds_content st st.
Proof.
  split; [reflexivity | ].
  exists []. split; [symmetry; apply app_nil_r | reflexivity].
Qed.

Lemma adds_content_trans (st1 st2 st3 : State) :
  adds_content st1 st2 -> adds_content st2 st3 -> adds_content st1 st3.
Proof.
  intros (Hd & cs & Hc & Hf) (Hd' & cs' & Hc' & Hf').
  split; [congruence | ].
  exists (cs ++ cs'). split.
  - rewrite Hc', Hc. symmetry. apply app_assoc.
  - rewrite forallb_app, Hf, Hf'. reflexivity.
Qed.

Lemma component_draw_adds_content {A : Type} (c : DrawCall) (r : Result A)
    (st st' : State) (a : A) :
  is_content c = true ->
  component_draw c r st = (Returned a, st') -> adds_content st st'.
Proof.
  intros Hc H. apply component_draw_returned in H as [_ ->].
  split; [reflexivity | ].
  exists [c]. split; [reflexivity | ]. simpl. rewrite Hc. reflexivity.
Qed.

Lemma draw_performance_bars_adds_content (bars : list PerformanceBarData)
    (label_width : float) (bar_width : option float) :
  forall (y y' : float) (st st' : State),
    draw_performance_bars self y bars label_width bar_width st
    = (Returned y', st') ->
    adds_content st st'.
Proof.
  induction bars as [ | bar_data bars IH]; intros y y' st st' H; simpl in H.
  - unfold ret in H. inversion H; subst. apply adds_content_refl.
  - apply bind_returned in H as (y1 & st1 & H1 & H2).
    apply adds_content_trans with st1.
    + unfold draw_performance_bar in H1.
      eapply component_draw_adds_content; [ | exact H1]. reflexivity.
    + eapply IH. exact H2.
Qed.

Lemma adds_content_well_opened (st st' : State) :
  adds_content st st' -> all_well_opened st -> all_well_opened st'.
Proof.
  intros (Hd & cs & Hc & Hf) (Wd & Wc). split.
  - rewrite Hd. exact Wd.
  - rewrite Hc. apply well_opened_app; assumption.
Qed.

Lemma new_page_well_opened (title : string) (subtitle : option string)
    (st st' : State) (y : float) :
  new_page self title subtitle st = (Returned y, st') ->
  all_well_opened st -> all_well_opened st'.
Proof.
  intros H (Wd & Wc). apply new_page_returned in H as [_ ->].
  split; simpl.
  - rewrite forallb_app, Wd. simpl. rewrite Wc. reflexivity.
  - reflexivity.
Qed.

Lemma run_well_opened (p : Prog) :
  forall (st st' : State) (y : float),
    run self p st = (Returned y, st') ->
    all_well_opened st -> all_well_opened st'.
Proof.
  induction p as [y0 | e | title subtitle k IH
                 | current_y needed_height title subtitle k IH
                 | y0 title show_line k IH
                 | y0 items title width x k IH
                 | y0 headers rows col_widths k IH
                 | center_x center_y data size k IH
                 | y0 data label_width bar_width x k IH
                 | y0 bars label_width bar_width k IH
                 | k IH | k IH];
    intros st st' y H W; simpl in H;
    try (apply bind_returned in H as (a & st1 & H1 & H2);
         eapply IH; [exact H2 | ]).
  - unfold ret in H. inversion H; subst. exact W.
  - discriminate H.
  - eapply new_page_well_opened; eassumption.
  - unfold check_page_break in H1.
    destruct (Float.ltb (Float.sub current_y needed_height) (min_y self)).
    + eapply new_page_well_opened; eassumption.
    + unfold ret in H1. inversion H1; subst. exact W.
  - eapply adds_content_well_opened; [ | exact W].
    eapply component_draw_adds_content; [ | exact H1]. reflexivity.
  - eapply adds_content_well_opened; [ | exact W].
    eapply component_draw_adds_content; [ | exact H1]. reflexivity.
  - eapply adds_content_well_opened; [ | exact W].
    eapply component_draw_adds_content; [ | exact H1]. reflexivity.
  - eapply adds_content_well_opened; [ | exact W].
    eapply component_draw_adds_content; [ | exact H1]. reflexivity.
  - eapply adds_content_well_opened; [ | exact W].
    eapply component_draw_adds_content; [ | exact H1]. reflexivity.
  - eapply adds_content_well_opened; [ | exact W].
    eapply draw_performance_bars_adds_content. exact H1.
  - unfold current_page, get_current_page in H1. inversion H1; subst. exact W.
  - unfold total_pages, get_total_pages in H1. inversion H1; subst. exact W.
Qed.

(** X11: every page of a report that returns opens with a header, then
    its footer, and holds after them only what the callback drew: the
    callback can add neither a header nor a footer, and no page is left
    without them. *)
Theorem create_report_pages_well_opened (title : string)
    (subtitle : option string) (content_callback : option Callback)
    (data : option Data) (st st' : State) (out : bytes) :
  create_report self title subtitle content_callback data st
  = (Returned out, st') ->
  forallb well_opened (doc_pages out) = true.
Proof.
  intros H. rewrite create_report_passes in H.
  apply bind_returned in H as (u & st1 & _ & H).
  unfold rendering_pass in H.
  apply bind_returned in H as (y & st2 & H2 & H).
  apply rendering_prologue_returned in H2 as [_ E2].
  apply bind_returned in H as (u' & st3 & H3 & H).
  assert (W : all_well_opened st3).
  { assert (W2 : all_well_opened st2) by (subst st2; split; reflexivity).
    destruct content_callback as [callback | ]; simpl in H3.
    - apply bind_returned in H3 as (y3 & st3' & Hr & Hret).
      unfold ret in Hret. inversion Hret; subst st3'.
      eapply run_well_opened; eassumption.
    - unfold ret in H3. inversion H3; subst st3. exact W2. }
  destruct W as (Wd & Wc).
  unfold bind, save, on_canvas, getvalue in H. inversion H; subst out.
  simpl. unfold Canvas_save, Canvas_showPage.
  destruct (_code (canvas st3)) as [ | c cs] eqn:E; [discriminate Wc | ].
  simpl. rewrite forallb_app, Wd. simpl. simpl in Wc. rewrite Wc. reflexivity.
Qed.

End Pages.

Section Lockstep.

Context {PerformanceBarData RadarChartData Data : Type}.
Variable self : @PDFGenerator PerformanceBarData RadarChartData.

Local Abbreviation State := (@State PerformanceBarData RadarChartData).
Local Abbreviation Prog := (@Prog PerformanceBarData RadarChartData).
Local Abbreviation Callback := (@Callback PerformanceBarData RadarChartData Data).
Local Abbreviation DrawCall := (@DrawCall PerformanceBarData RadarChartData).

(** ** Callbacks that cannot tell the passes apart *)






End Lockstep.

Section Clock.

Context {PerformanceBarData RadarChartData Data : Type}.
Variable self : @PDFGenerator PerformanceBarData RadarChartData.

Local Abbreviation State := (@State PerformanceBarData RadarChartData).
Local Abbreviation Callback := (@Callback PerformanceBarData RadarChartData Data).

Lemma accounts_invoke (content_callback : option Callback) (start_y : float)
    (data : option Data) (counting_only : bool) (st : State) :
  accounts
    (callback_breaks self content_callback (Returned start_y, st) data
                     counting_only)
    st (snd (invoke self content_callback start_y data counting_only st)).
Proof.
  destruct content_callback as [callback | ]; simpl.
  - pose proof (accounts_run self (callback start_y data counting_only) st)
      as H.
    unfold bind.
    destruct (run self (callback start_y data counting_only) st)
      as [[y | e] st1]; exact H.
  - apply accounts_refl.
Qed.

(** X14: a report that returns has read the date once for each page of
    each pass, one header each: with [nc] page breaks while counting and
    [nr] while rendering, [nc + 1] and then [nr + 1] readings. *)
Theorem create_report_reads_clock_per_page (title : string)
    (subtitle : option string) (content_callback : option Callback)
    (data : option Data) (st st' : State) (out : bytes) :
  create_report self title subtitle content_callback data st
  = (Returned out, st') ->
  reads st'
  = (reads st
     + (counting_breaks self title subtitle content_callback data st + 1)
     + (rendering_breaks self title subtitle content_callback data st + 1))%nat
  /\ clock st' = clock st.
Proof.
  intros H. rewrite create_report_passes in H.
  apply bind_returned in H as (u & st1 & H1 & H2).
  unfold rendering_breaks, counting_breaks. rewrite H1. simpl snd.
  unfold counting_pass in H1.
  apply bind_returned in H1 as (yc & sc & Pc & H1).
  apply bind_returned in H1 as (uc & sc' & Ic & H1).
  unfold bind, showPage, on_canvas, get_current_page, set_total_pages in H1.
  inversion H1; subst st1; clear H1.
  unfold rendering_pass in H2.
  apply bind_returned in H2 as (yr & sr & Pr & H2).
  apply bind_returned in H2 as (ur & sr' & Ir & H2).
  unfold bind, save, on_canvas, getvalue in H2.
  inversion H2; subst st' out; clear H2.
  rewrite Pc, Pr.
  pose proof (accounts_invoke content_callback yc data true sc) as Ac.
  rewrite Ic in Ac. destruct Ac as (_ & _ & Rc & Kc & _).
  pose proof (accounts_invoke content_callback yr data false sr) as Ar.
  rewrite Ir in Ar. destruct Ar as (_ & _ & Rr & Kr & _).
  apply counting_prologue_returned in Pc as [_ Ec].
  apply rendering_prologue_returned in Pr as [_ Er].
  assert (Fc : reads sc = S (reads st) /\ clock sc = clock st)
    by (rewrite Ec; split; reflexivity).
  assert (Fr : reads sr = S (reads sc') /\ clock sr = clock sc')
    by (rewrite Er; split; reflexivity).
  destruct Fc as [Fc Gc]. destruct Fr as [Fr Gr].
  cbn [snd] in Rc, Kc, Rr, Kr. cbn [with_canvas reads clock].
  split; [lia | congruence].
Qed.

End Clock.

(** * The further properties at work *)

(** A report whose info block raises while counting: no bytes. *)
Lemma create_report_raises_without_bytes_witness :
  fst (create_report Demo.generator_bad_block Demo.report_title
         Demo.report_subtitle (Some Demo.one_block) None
         (Demo.fresh Demo.today))
  = Raised "TypeError: malformed items"%string /\
  buffer (canvas (snd (create_report Demo.generator_bad_block
                         Demo.report_title Demo.report_subtitle
                         (Some Demo.one_block) None (Demo.fresh Demo.today))))
  = empty_bytes.
Proof.
  assert (H : fst (create_report Demo.generator_bad_block Demo.report_title
                     Demo.report_subtitle (Some Demo.one_block) None
                     (Demo.fresh Demo.today))
              = Raised "TypeError: malformed items"%string)
    by (vm_compute; reflexivity).
  split; [exact H | ].
  exact (create_report_raises_without_bytes Demo.generator_bad_block
           Demo.report_title Demo.report_subtitle (Some Demo.one_block) None
           (Demo.fresh Demo.today) _ H).
Defined.

(** Two bars that are accepted: two calls on the page. *)
Lemma draw_performance_bars_draws_witness :
  exists y' st',
    draw_performance_bars Demo.generator_bars (Demo.f 500) [true; true]
                          (default_label_width) None Demo.fresh_bars
    = (Returned y', st') /\
    exists ys,
      List.length ys = 2%nat /\
      hd y' ys = Demo.f 500 /\
      _code (canvas st')
      = _code (canvas Demo.fresh_bars)
        ++ bar_calls Demo.generator_bars ys [true; true] default_label_width
                     None /\
      _doc (canvas st') = _doc (canvas Demo.fresh_bars).
Proof.
  eexists. eexists.
  assert (H : draw_performance_bars Demo.generator_bars (Demo.f 500)
                [true; true] default_label_width None Demo.fresh_bars
              = (Returned _, _)) by (vm_compute; reflexivity).
  split; [exact H | ].
  exact (draw_performance_bars_draws Demo.generator_bars [true; true]
           default_label_width None _ _ _ _ H).
Defined.

(** A bar that is rejected after one that is accepted: the third bar is
    not drawn. *)
Lemma draw_performance_bars_fails_fast_witness :
  exists y1 st1,
    draw_performance_bars Demo.generator_bars (Demo.f 500) [true]
                          default_label_width None Demo.fresh_bars
    = (Returned y1, st1) /\
    performance_bar Demo.generator_bars
      (page_margin_left (styles Demo.generator_bars)) y1 false
      default_label_width None
    = Raised "ValueError: bar out of range"%string /\
    draw_performance_bars Demo.generator_bars (Demo.f 500)
                          ([true] ++ false :: [true])
                          default_label_width None Demo.fresh_bars
    = (Raised "ValueError: bar out of range"%string, st1).
Proof.
  eexists. eexists.
  assert (H1 : draw_performance_bars Demo.generator_bars (Demo.f 500) [true]
                 default_label_width None Demo.fresh_bars
               = (Returned _, _)) by (vm_compute; reflexivity).
  split; [exact H1 | split; [vm_compute; reflexivity | ]].
  exact (draw_performance_bars_fails_fast Demo.generator_bars [true]
           default_label_width None _ _ _ _ false [true] _ H1
           ltac:(vm_compute; reflexivity)).
Defined.

(** A logo that cannot be opened: the report fails on its first header. *)
Lemma create_report_header_fails_witness :
  header_component Demo.generator_no_logo
    (mkHeaderData Demo.report_title Demo.report_subtitle
                  (clock (Demo.fresh Demo.today)
                         (reads (Demo.fresh Demo.today)))
                  (logo_path Demo.generator_no_logo))
    (fst (_page_size Demo.generator_no_logo))
  = Raised "cannot open logo"%string /\
  create_report Demo.generator_no_logo Demo.report_title Demo.report_subtitle
                (Some Demo.three_blocks) None (Demo.fresh Demo.today)
  = (Raised "cannot open logo"%string,
     mkState 1 0
             (new_Canvas (_page_size Demo.generator_no_logo)
                         (stamps (Demo.fresh Demo.today)
                                 (made (Demo.fresh Demo.today))))
             (clock (Demo.fresh Demo.today))
             (S (reads (Demo.fresh Demo.today)))
             (stamps (Demo.fresh Demo.today))
             (S (made (Demo.fresh Demo.today)))).
Proof.
  assert (H : header_component Demo.generator_no_logo
                (mkHeaderData Demo.report_title Demo.report_subtitle
                              (clock (Demo.fresh Demo.today)
                                     (reads (Demo.fresh Demo.today)))
                              (logo_path Demo.generator_no_logo))
                (fst (_page_size Demo.generator_no_logo))
              = Raised "cannot open logo"%string) by reflexivity.
  split; [exact H | ].
  exact (create_report_header_fails Demo.generator_no_logo Demo.report_title
           Demo.report_subtitle (Some Demo.three_blocks) None
           (Demo.fresh Demo.today) _ H).
Defined.

(** A footer that raises, under a callback without page breaks: the
    counting pass returns and the report fails on the footer of page 1. *)
Lemma create_report_footer_fails_witness :
  exists st1 st',
    counting_pass Demo.generator_bad_footer Demo.report_title
                  Demo.report_subtitle (Some Demo.one_block) None
                  (Demo.fresh Demo.today)
    = (Returned tt, st1) /\
    _total_pages st1 = 1 /\
    create_report Demo.generator_bad_footer Demo.report_title
                  Demo.report_subtitle (Some Demo.one_block) None
                  (Demo.fresh Demo.today)
    = (Raised "KeyError: font"%string, st') /\
    _total_pages st' = 1 /\
    _current_page st' = 1.
Proof.
  eexists. eexists.
  assert (H1 : counting_pass Demo.generator_bad_footer Demo.report_title
                 Demo.report_subtitle (Some Demo.one_block) None
                 (Demo.fresh Demo.today)
               = (Returned tt, _)) by (vm_compute; reflexivity).
  pose proof (create_report_footer_fails Demo.generator_bad_footer
                Demo.report_title Demo.report_subtitle (Some Demo.one_block)
                None (Demo.fresh Demo.today) _ tt (Demo.f 500)
                "KeyError: font"%string H1
                ltac:(vm_compute; reflexivity) ltac:(vm_compute; reflexivity))
    as H.
  split; [exact H1 | split; [reflexivity | ]].
  split; [exact H | split; reflexivity].
Defined.

(** A callback that breaks the page while counting only: one page, which
    says "1 of 2". *)
Lemma create_report_pages_and_total_witness :
  exists out st',
    create_report Demo.generator Demo.report_title Demo.report_subtitle
                  (Some Demo.breaks_when_counting) None
                  (Demo.fresh Demo.today)
    = (Returned out, st') /\
    List.length (doc_pages out) = 1%nat /\
    _total_pages st' = 2 /\
    _current_page st' = Z.of_nat (List.length (doc_pages out)) /\
    forall page,
      nth_error (doc_pages out) 0 = Some page ->
      footers page
      = [FooterDraw (mkFooterData true 2) 1 (page_width Demo.generator)].
Proof.
  eexists. eexists.
  assert (H : create_report Demo.generator Demo.report_title
                Demo.report_subtitle (Some Demo.breaks_when_counting) None
                (Demo.fresh Demo.today)
              = (Returned _, _)) by (vm_compute; reflexivity).
  split; [exact H | split; [reflexivity | split; [reflexivity | ]]].
  destruct (create_report_pages_and_total Demo.generator Demo.report_title
              Demo.report_subtitle (Some Demo.breaks_when_counting) None
              (Demo.fresh Demo.today) _ _ H) as (_ & Hc & Hf & _).
  split; [exact Hc | ].
  assert (E : counting_breaks Demo.generator Demo.report_title
                Demo.report_subtitle (Some Demo.breaks_when_counting) None
                (Demo.fresh Demo.today) = 1%nat) by (vm_compute; reflexivity).
  rewrite E in Hf. exact (Hf 0%nat).
Defined.

(** The three pages of the three-block report are well opened. *)
Lemma create_report_pages_well_opened_witness :
  exists out st',
    create_report Demo.generator Demo.report_title Demo.report_subtitle
                  (Some Demo.three_blocks) None (Demo.fresh Demo.today)
    = (Returned out, st') /\
    forallb well_opened (doc_pages out) = true.
Proof.
  eexists. eexists.
  assert (H : create_report Demo.generator Demo.report_title
                Demo.report_subtitle (Some Demo.three_blocks) None
                (Demo.fresh Demo.today)
              = (Returned _, _)) by (vm_compute; reflexivity).
  split; [exact H | ].
  exact (create_report_pages_well_opened Demo.generator Demo.report_title
           Demo.report_subtitle (Some Demo.three_blocks) None
           (Demo.fresh Demo.today) _ _ H).
Defined.


(** The three-block report reads the date six times. *)
Lemma create_report_reads_clock_per_page_witness :
  exists out st',
    create_report Demo.generator Demo.report_title Demo.report_subtitle
                  (Some Demo.three_blocks) None (Demo.fresh Demo.today)
    = (Returned out, st') /\
    reads st' = 6%nat.
Proof.
  eexists. eexists.
  assert (H : create_report Demo.generator Demo.report_title
                Demo.report_subtitle (Some Demo.three_blocks) None
                (Demo.fresh Demo.today)
              = (Returned _, _)) by (vm_compute; reflexivity).
  split; [exact H | ].
  destruct (create_report_reads_clock_per_page Demo.generator
              Demo.report_title Demo.report_subtitle (Some Demo.three_blocks)
              None (Demo.fresh Demo.today) _ _ H) as [Hr _].
  reflexivity.
Defined.
